(** * BANKLOVABLE: the Express server, the axios client and the receipt layout

    A shallow embedding of the parts of the repository that its specification
    makes claims about:

    - the Express server ([Server]): the authentication middleware, the login
      rate limiter and the route handlers;
    - the frontend API client ([Client]): the axios instance, its response
      interceptor and [users.verifyPin];
    - the receipt generator ([Receipt]): the placement of the rasterized
      receipt on the A4 page, over IEEE 754 doubles.

    The database module, bcrypt, jsonwebtoken and the string predicates of
    validator.js are external collaborators: a handler receives their answers
    through an environment record [Env] and every call it makes is logged in a
    trace, so that "does not query the store" is a statement about the trace. *)

From Stdlib Require Import ZArith QArith Uint63 PrimFloat String Ascii.
From stdpp Require Import gmap strings list.

Set Warnings "-register-all,-inexact-float".
Local Open Scope string_scope.

(** ** JavaScript values *)

Module Js.

Inductive value : Type :=
| Undefined
| Null
| Bool (b : bool)
| Num (q : Q)
| Str (s : string)
| Obj (fields : list (string * value))
| Arr (items : list value).

(** ToBoolean. *)
Definition truthy (v : value) : bool :=
  match v with
  | Undefined | Null => false
  | Bool b => b
  | Num q => negb (Qeq_bool q 0)
  | Str s => negb (String.eqb s "")
  | Obj _ | Arr _ => true
  end.

(** [a || b]. *)
Definition or (a b : value) : value := if truthy a then a else b.

Fixpoint assoc (k : string) (fields : list (string * value)) : value :=
  match fields with
  | [] => Undefined
  | (k', v) :: rest => if String.eqb k k' then v else assoc k rest
  end.

(** [v.k] on an object, and [v?.k] on anything. *)
Definition get (k : string) (v : value) : value :=
  match v with
  | Obj fields => assoc k fields
  | _ => Undefined
  end.

Fixpoint assoc_set (k : string) (x : value) (fields : list (string * value))
  : list (string * value) :=
  match fields with
  | [] => [(k, x)]
  | (k', v) :: rest =>
      if String.eqb k k' then (k, x) :: rest else (k', v) :: assoc_set k x rest
  end.

(** [v.k = x] on an object. *)
Definition set (k : string) (x : value) (v : value) : value :=
  match v with
  | Obj fields => Obj (assoc_set k x fields)
  | _ => v
  end.

(** [typeof v === 'string']. *)
Definition is_string (v : value) : bool :=
  match v with Str _ => true | _ => false end.

(** [v === s] for a string literal [s]. *)
Definition eq_str (v : value) (s : string) : bool :=
  match v with Str s' => String.eqb s' s | _ => false end.

(** [v === false]. *)
Definition eq_false (v : value) : bool :=
  match v with Bool false => true | _ => false end.

Definition of_option (o : option string) : value :=
  match o with Some s => Str s | None => Undefined end.

(** [s.split(' ')]: one piece per separator, empty pieces kept. *)
Fixpoint split_space (s : string) : list string :=
  match s with
  | EmptyString => [""]
  | String c rest =>
      if Ascii.eqb c " "%char then "" :: split_space rest
      else match split_space rest with
           | [] => [String c ""]
           | piece :: pieces => String c piece :: pieces
           end
  end.

(** [arr[i]] on an array of strings. *)
Definition index (i : nat) (arr : list string) : value :=
  of_option (arr !! i).

End Js.

(** ** HTTP responses and the effects of a handler *)

Record response := Response { status : nat; body : Js.value }.

(** What a rejected promise or a thrown exception carries. *)
Record error := Error { err_name : string; err_code : Js.value; err_message : string }.

Inductive result (A : Type) : Type :=
| Ok (a : A)
| Err (e : error).
Arguments Ok {A} a.
Arguments Err {A} e.

(** The token payload signed at login and decoded by the middleware. *)
Record claims := Claims { claim_id : string; claim_username : string; claim_isAdmin : bool }.

Inductive verify_result : Type :=
| Verified (user : claims)
| VerifyError (e : error).

(** A row of the users table, with the columns the handlers read. *)
Record user := User {
  user_id : string;
  user_username : string;
  user_full_name : string;
  user_email : string;
  user_phone : Js.value;
  user_password : string;
  user_pin : Js.value;
  user_status : string;
  user_balance : Js.value;
  user_is_admin : bool;
  user_avatar : Js.value;
  user_created_at : Js.value;
  user_last_login : Js.value
}.

(** Calls that leave the process, and the cookie header of the response. *)
Inductive event : Type :=
| DbGetUserByUsername (username : string)
| DbGetUserById (id : string)
| DbGetSettings
| DbCreateUser (data : Js.value)
| DbUpdateUserLastLogin (id : string)
| DbUpdateUserBalance (id : string) (balance : Js.value)
| DbGetUserTransactions (id : string)
| DbUpdateUserAvatar (id : string) (path : string)
| DbDeleteUserAvatar (id : string)
| BcryptCompare (data : Js.value) (hash : Js.value)
| JwtVerify (token : string)
| JwtSign (payload : claims)
| ResCookie (name : string) (val : string)
| StoreFile (filename : string).

(** The answers of the external collaborators during one request. *)
Record Env := {
  jwt_verify : string -> verify_result;
  jwt_sign : claims -> string;
  bcrypt_compare : Js.value -> Js.value -> result bool;
  db_getUserByUsername : string -> result (option user);
  db_getUserById : string -> result (option user);
  db_getSettings : result Js.value;
  db_createUser : Js.value -> result user;
  db_updateUserLastLogin : string -> result unit;
  db_updateUserBalance : string -> Js.value -> result Js.value;
  db_getUserTransactions : string -> result Js.value;
  db_updateUserAvatar : string -> string -> result Js.value;
  db_deleteUserAvatar : string -> result unit;
  (** validator.js: [isEmail], the float literals [isFloat] accepts, and
      [String(n)] for a number. *)
  isEmail : string -> bool;
  parseFloat : string -> option Q;
  numToString : Q -> string;
  (** Node's [path.extname], and the value of [uuidv4()]. *)
  path_extname : string -> string;
  uuidv4 : string
}.

(** ** The handler monad

    The only process state a handler touches is the [loginAttempts] map. A
    handler step ends with a value, with the response sent ([return
    res.status(..).json(..)]) or with an exception. *)

Inductive outcome (A : Type) : Type :=
| Val (a : A)
| Sent (r : response)
| Thrown (e : error).
Arguments Val {A} a.
Arguments Sent {A} r.
Arguments Thrown {A} e.

Definition Handler (A : Type) : Type :=
  gmap string nat -> outcome A * gmap string nat * list event.

Global Instance Handler_ret : MRet Handler :=
  fun A a st => (Val a, st, []).

Global Instance Handler_bind : MBind Handler :=
  fun A B f m st =>
    match m st with
    | (Val a, st', t) => let '(o, st'', t') := f a st' in (o, st'', (t ++ t')%list)
    | (Sent r, st', t) => (Sent r, st', t)
    | (Thrown e, st', t) => (Thrown e, st', t)
    end.

(** [try { m } catch (error) { h error }]. *)
Definition try_catch {A} (m : Handler A) (h : error -> Handler A) : Handler A :=
  fun st =>
    match m st with
    | (Thrown e, st', t) => let '(o, st'', t') := h e st' in (o, st'', (t ++ t')%list)
    | r => r
    end.

(** [return res.status(code).json(body)]. *)
Definition send {A} (code : nat) (b : Js.value) : Handler A :=
  fun st => (Sent (Response code b), st, []).

(** [await f(..)] on an external collaborator. *)
Definition call {A} (ev : event) (r : result A) : Handler A :=
  fun st => (match r with Ok a => Val a | Err e => Thrown e end, st, [ev]).

Definition emit (ev : event) : Handler unit :=
  fun st => (Val tt, st, [ev]).

(** [loginAttempts.get(ip) || 0]. *)
Definition loginAttempts_get (ip : string) : Handler nat :=
  fun st => (Val (default 0 (st !! ip)), st, []).

Definition loginAttempts_set (ip : string) (n : nat) : Handler unit :=
  fun st => (Val tt, <[ip := n]> st, []).

Definition loginAttempts_delete (ip : string) : Handler unit :=
  fun st => (Val tt, delete ip st, []).

(** [setInterval(() => loginAttempts.clear(), 60 * 60 * 1000)]. *)
Definition sweep (st : gmap string nat) : gmap string nat := ∅.

(** What the client gets: the response the handler sent, if it sent one (an
    async handler that throws outside its [try] leaves the request open). *)
Definition run (h : Handler unit) (st : gmap string nat)
  : option response * gmap string nat * list event :=
  match h st with
  | (Sent r, st', t) => (Some r, st', t)
  | (Val _, st', t) => (None, st', t)
  | (Thrown _, st', t) => (None, st', t)
  end.

(** ** express-validator chains

    [body(field).trim().notEmpty().withMessage(msg)] and its siblings. A
    chain reads its field through express-validator's [toString], a
    sanitizer writes the sanitized string back into [req.body], and a failed
    check adds its message to the validation result (of an error object only
    [msg] is kept). *)

Inductive check : Type :=
| notEmpty
| isEmailCheck
| isLength (min : nat)
| isFloat (min : Q).

Record chain := Chain {
  chain_field : string;
  chain_trim : bool;
  chain_check : check;
  chain_message : string
}.

Definition is_space (c : ascii) : bool :=
  let n := nat_of_ascii c in
  (n =? 32)%nat || ((9 <=? n)%nat && (n <=? 13)%nat).

Fixpoint trim_left (s : string) : string :=
  match s with
  | String c rest => if is_space c then trim_left rest else s
  | EmptyString => EmptyString
  end.

Fixpoint trim_right (s : string) : string :=
  match s with
  | String c rest =>
      match trim_right rest with
      | EmptyString => if is_space c then EmptyString else String c EmptyString
      | rest' => String c rest'
      end
  | EmptyString => EmptyString
  end.

(** validator.js [trim], on the white space of a byte string. *)
Definition trim (s : string) : string := trim_right (trim_left s).

(** express-validator's [toString] on a JSON value. *)
Definition toString (env : Env) (v : Js.value) : string :=
  match v with
  | Js.Str s => s
  | Js.Num q => numToString env q
  | Js.Bool true => "true"
  | Js.Bool false => "false"
  | _ => ""
  end.

Definition run_check (env : Env) (c : check) (v : Js.value) : bool :=
  match c with
  | notEmpty => negb (String.eqb (toString env v) "")
  | isEmailCheck => isEmail env (toString env v)
  | isLength min => (min <=? String.length (toString env v))%nat
  | isFloat min =>
      match v with
      | Js.Num q => Qle_bool min q
      | Js.Str s => match parseFloat env s with
                    | Some q => Qle_bool min q
                    | None => false
                    end
      | _ => false
      end
  end.

(** One chain: the body after its sanitizer, and its error if the check
    fails. *)
Definition run_chain (env : Env) (c : chain) (b : Js.value)
  : Js.value * list string :=
  let b' := if chain_trim c
            then Js.set (chain_field c)
                        (Js.Str (trim (toString env (Js.get (chain_field c) b)))) b
            else b in
  (b', if run_check env (chain_check c) (Js.get (chain_field c) b')
       then [] else [chain_message c]).

(** The chains of a route run in order; [validationResult(req)] collects
    their errors. *)
Fixpoint run_chains (env : Env) (cs : list chain) (b : Js.value)
  : Js.value * list string :=
  match cs with
  | [] => (b, [])
  | c :: rest =>
      let '(b1, e1) := run_chain env c b in
      let '(b2, e2) := run_chains env rest b1 in
      (b2, (e1 ++ e2)%list)
  end.

Definition errors_array (errors : list string) : Js.value :=
  Js.Arr (map (fun m => Js.Obj [("msg", Js.Str m)]) errors).

Definition validation_failed (errors : list string) : Js.value :=
  Js.Obj [("message", Js.Str "Validation failed"); ("errors", errors_array errors)].

Definition message (m : string) : Js.value := Js.Obj [("message", Js.Str m)].

Definition server_error (m : string) (e : error) : Js.value :=
  Js.Obj [("message", Js.Str m); ("error", Js.Str (err_message e))].

(** ** Requests *)

(** A file part of a multipart body, and what multer leaves in [req.file]. *)
Record upload := Upload {
  upload_fieldname : string;
  upload_originalname : string;
  upload_mimetype : string;
  upload_size : N
}.

Record file := File { file_filename : string }.

Record request := Request {
  req_ip : string;
  req_authorization : option string;  (* req.headers['authorization'] *)
  req_cookie_token : option string;   (* req.cookies?.token *)
  req_param : string;                 (* req.params.id or req.params.userId *)
  req_body : Js.value;
  req_upload : option upload
}.

(** ** The Express server *)

Module Server.

(** [authenticateToken]: ends with the decoded claims ([req.user = user;
    next()]) or with the response it sent. *)
Definition authenticateToken (env : Env) (req : request) : Handler claims :=
  let authHeader := Js.of_option (req_authorization req) in
  let headerToken :=
    match req_authorization req with
    | Some h => if Js.truthy authHeader then Js.index 1 (Js.split_space h) else authHeader
    | None => authHeader
    end in
  let cookieToken := Js.of_option (req_cookie_token req) in
  let token := Js.or cookieToken headerToken in
  if negb (Js.truthy token) then
    send 401 (message "Access denied. No token provided.")
  else
    let verified :=
      match token with
      | Js.Str t => (JwtVerify t, jwt_verify env t)
      | _ => (JwtVerify "", VerifyError (Error "JsonWebTokenError" Js.Undefined "jwt must be a string"))
      end in
    emit (fst verified);;
    match snd verified with
    | VerifyError err =>
        send 403 (message (if String.eqb (err_name err) "TokenExpiredError"
                           then "Token expired. Please log in again."
                           else "Invalid token."))
    | Verified user => mret user
    end.

(** [s.toLowerCase()] on a byte string. *)
Fixpoint toLowerCase (s : string) : string :=
  match s with
  | EmptyString => EmptyString
  | String c rest =>
      let n := nat_of_ascii c in
      String (if (65 <=? n)%nat && (n <=? 90)%nat then ascii_of_nat (n + 32) else c)
             (toLowerCase rest)
  end.

(** [/jpeg|jpg|png/.test(s)]. *)
Definition filetypes_test (s : string) : bool :=
  let found sub := match index 0 sub s with Some _ => true | None => false end in
  found "jpeg" || found "jpg" || found "png".

(** The [fileFilter] of the avatar upload. *)
Definition fileFilter (env : Env) (f : upload) : result unit :=
  let mimetype := filetypes_test (upload_mimetype f) in
  let extname := filetypes_test (toLowerCase (path_extname env (upload_originalname f))) in
  if mimetype && extname then Ok tt
  else Err (Error "Error" Js.Undefined "Only .jpeg, .jpg, and .png files are allowed").

(** The [filename] of the disk storage. *)
Definition storage_filename (env : Env) (req : request) (f : upload) : string :=
  let userId := if Js.truthy (Js.Str (req_param req)) then req_param req else uuidv4 env in
  let fileExt := path_extname env (upload_originalname f) in
  "avatar-" +:+ userId +:+ fileExt.

(** [limits: { fileSize: 2 * 1024 * 1024 }]. *)
Definition fileSize : N := 2 * 1024 * 1024.

(** What [upload.single('avatar')] makes of the request: no file, the
    stored file, or the error it hands to [next]. *)
Definition multer_single (env : Env) (req : request) : result (option file) :=
  match req_upload req with
  | None => Ok None
  | Some f =>
      if negb (String.eqb (upload_fieldname f) "avatar") then
        Err (Error "MulterError" (Js.Str "LIMIT_UNEXPECTED_FILE") "Unexpected field")
      else
        match fileFilter env f with
        | Err e => Err e
        | Ok _ =>
            if (fileSize <? upload_size f)%N then
              Err (Error "MulterError" (Js.Str "LIMIT_FILE_SIZE") "File too large")
            else Ok (Some (File (storage_filename env req f)))
        end
  end.

(** The error handler at the end of the chain: [app.use((err, req, res,
    next) => ...)]. *)
Definition error_handler {A} (err : error) : Handler A :=
  send 500 (server_error "An unexpected error occurred" err).

(** [upload.single('avatar')] as a middleware: the accepted file is on disk
    when the next handler runs, an error goes to the error handler. *)
Definition upload_single (env : Env) (req : request) : Handler (option file) :=
  match multer_single env req with
  | Err e => error_handler e
  | Ok None => mret None
  | Ok (Some f) => emit (StoreFile (file_filename f));; mret (Some f)
  end.

Definition login_chains : list chain :=
  [ Chain "username" true notEmpty "Username is required";
    Chain "password" false notEmpty "Password is required" ].

(** [app.post('/api/login', ...)]. *)
Definition post_login (env : Env) (req : request) : Handler unit :=
  let ip := req_ip req in
  attempts ← loginAttempts_get ip;
  if (5 <=? attempts)%nat then
    send 429 (message "Too many login attempts. Please try again later.")
  else
    try_catch
      (let '(body, errors) := run_chains env login_chains (req_body req) in
       if negb (bool_decide (errors = [])) then
         send 400 (validation_failed errors)
       else
         let username := toString env (Js.get "username" body) in
         let password := Js.get "password" body in
         user ← call (DbGetUserByUsername username) (db_getUserByUsername env username);
         match user with
         | None =>
             loginAttempts_set ip (attempts + 1);;
             send 401 (message "User not found. Please check your username.")
         | Some user =>
             if negb (String.eqb (user_status user) "Active") then
               send 403 (message "Your account is inactive. Please contact support.")
             else
               validPassword ← call (BcryptCompare password (Js.Str (user_password user)))
                                    (bcrypt_compare env password (Js.Str (user_password user)));
               if negb validPassword then
                 loginAttempts_set ip (attempts + 1);;
                 send 401 (message "Incorrect password. Please try again.")
               else
                 loginAttempts_delete ip;;
                 call (DbUpdateUserLastLogin (user_id user))
                      (db_updateUserLastLogin env (user_id user));;
                 let payload := Claims (user_id user) (user_username user) (user_is_admin user) in
                 emit (JwtSign payload);;
                 let token := jwt_sign env payload in
                 emit (ResCookie "token" token);;
                 send 200 (Js.Obj [("user", Js.Obj [
                   ("id", Js.Str (user_id user));
                   ("username", Js.Str (user_username user));
                   ("fullName", Js.Str (user_full_name user));
                   ("email", Js.Str (user_email user));
                   ("isAdmin", Js.Bool (user_is_admin user));
                   ("avatar", user_avatar user)])])
         end)
      (fun error => send 500 (server_error "Server error during login" error)).

Definition create_chains : list chain :=
  [ Chain "full_name" true notEmpty "Full name is required";
    Chain "username" true notEmpty "Username is required";
    Chain "email" false isEmailCheck "Valid email is required";
    Chain "password" false (isLength 6) "Password must be at least 6 characters" ].

Definition created_user (u : user) : Js.value :=
  Js.Obj [
    ("id", Js.Str (user_id u));
    ("username", Js.Str (user_username u));
    ("fullName", Js.Str (user_full_name u));
    ("email", Js.Str (user_email u));
    ("isAdmin", Js.Bool (user_is_admin u));
    ("status", Js.Str (user_status u));
    ("avatar", Js.or (user_avatar u) Js.Null);
    ("created_at", user_created_at u);
    ("balance", Js.or (user_balance u) (Js.Num 0)) ].

(** The [catch] of both user-creation routes. *)
Definition create_catch (error : error) : Handler unit :=
  if Js.eq_str (err_code error) "23505" then
    send 400 (message "Username or email already exists")
  else
    send 500 (server_error "Server error creating user" error).

(** [app.post('/api/signup', ...)]. *)
Definition post_signup (env : Env) (req : request) : Handler unit :=
  let '(body, errors) := run_chains env create_chains (req_body req) in
  try_catch
    (if negb (bool_decide (errors = [])) then
       send 400 (validation_failed errors)
     else
       settings ← call DbGetSettings (db_getSettings env);
       if Js.truthy settings && Js.eq_false (Js.get "allowNewUsers" settings) then
         send 403 (message "Registrations are disabled.")
       else
         user ← call (DbCreateUser body) (db_createUser env body);
         send 201 (Js.Obj [("data", created_user user)]))
    create_catch.

(** [app.post('/api/users', ...)]: the chains run before
    [authenticateToken]. *)
Definition post_users (env : Env) (req : request) : Handler unit :=
  let '(body, errors) := run_chains env create_chains (req_body req) in
  req_user ← authenticateToken env req;
  try_catch
    (if negb (claim_isAdmin req_user) then
       send 403 (message "Admin access required")
     else if negb (bool_decide (errors = [])) then
       send 400 (validation_failed errors)
     else
       user ← call (DbCreateUser body) (db_createUser env body);
       send 201 (Js.Obj [("user", created_user user)]))
    create_catch.

(** [app.post('/api/users/:userId/verify-pin', authenticateToken, ...)]. *)
Definition post_verify_pin (env : Env) (req : request) : Handler unit :=
  _ ← authenticateToken env req;
  try_catch
    (let pin := Js.get "pin" (req_body req) in
     let userId := req_param req in
     if negb (Js.truthy pin) || negb (Js.is_string pin) then
       send 400 (message "PIN is required and must be a string.")
     else
       user ← call (DbGetUserById userId) (db_getUserById env userId);
       match user with
       | None => send 404 (message "User or PIN not found.")
       | Some user =>
           if negb (Js.truthy (user_pin user)) then
             send 404 (message "User or PIN not found.")
           else
             isValid ← call (BcryptCompare pin (user_pin user))
                            (bcrypt_compare env pin (user_pin user));
             send 200 (Js.Obj [("data", Js.Obj [("valid", Js.Bool isValid)])])
       end)
    (fun error => send 500 (server_error "Server error verifying PIN" error)).

Definition balance_chains : list chain :=
  [ Chain "balance" false (isFloat 0) "Balance must be a positive number" ].

(** [app.patch('/api/users/:id/balance', authenticateToken, ...)]. *)
Definition patch_balance (env : Env) (req : request) : Handler unit :=
  req_user ← authenticateToken env req;
  let '(body, errors) := run_chains env balance_chains (req_body req) in
  try_catch
    (if negb (claim_isAdmin req_user) then
       send 403 (message "Admin access required")
     else if negb (bool_decide (errors = [])) then
       send 400 (validation_failed errors)
     else
       user ← call (DbUpdateUserBalance (req_param req) (Js.get "balance" body))
                   (db_updateUserBalance env (req_param req) (Js.get "balance" body));
       send 200 (Js.Obj [("data", user)]))
    (fun error => send 500 (server_error "Server error updating user balance" error)).

(** [!req.user.isAdmin && req.params.id !== req.user.id], the check of the
    self-or-admin routes. *)
Definition forbidden (req_user : claims) (req : request) : bool :=
  negb (claim_isAdmin req_user) && negb (String.eqb (req_param req) (claim_id req_user)).

(** [app.get('/api/users/:id', authenticateToken, ...)]. *)
Definition get_user (env : Env) (req : request) : Handler unit :=
  req_user ← authenticateToken env req;
  try_catch
    (if forbidden req_user req then
       send 403 (message "You can only access your own user details")
     else
       user ← call (DbGetUserById (req_param req)) (db_getUserById env (req_param req));
       match user with
       | None => send 404 (message "User not found")
       | Some user =>
           send 200 (Js.Obj [("user", Js.Obj [
             ("id", Js.Str (user_id user));
             ("username", Js.Str (user_username user));
             ("fullName", Js.Str (user_full_name user));
             ("email", Js.Str (user_email user));
             ("phone", user_phone user);
             ("status", Js.Str (user_status user));
             ("balance", user_balance user);
             ("isAdmin", Js.Bool (user_is_admin user));
             ("avatar", user_avatar user);
             ("created_at", user_created_at user);
             ("last_login", user_last_login user)])])
       end)
    (fun error => send 500 (server_error "Server error fetching user" error)).

(** [app.get('/api/users/:userId/transactions', authenticateToken, ...)]. *)
Definition get_user_transactions (env : Env) (req : request) : Handler unit :=
  req_user ← authenticateToken env req;
  try_catch
    (if forbidden req_user req then
       send 403 (message "You can only access your own transactions")
     else
       transactions ← call (DbGetUserTransactions (req_param req))
                           (db_getUserTransactions env (req_param req));
       send 200 (Js.Obj [("data", transactions)]))
    (fun error => send 500 (server_error "Server error fetching transactions" error)).

(** [app.patch('/api/users/:id/avatar', authenticateToken,
    upload.single('avatar'), ...)]. *)
Definition patch_avatar (env : Env) (req : request) : Handler unit :=
  req_user ← authenticateToken env req;
  req_file ← upload_single env req;
  try_catch
    (if forbidden req_user req then
       send 403 (message "You can only update your own avatar")
     else
       match req_file with
       | None => send 400 (message "Avatar file is required")
       | Some f =>
           let avatarPath := "/Uploads/avatars/" +:+ file_filename f in
           _ ← call (DbUpdateUserAvatar (req_param req) avatarPath)
                    (db_updateUserAvatar env (req_param req) avatarPath);
           send 200 (Js.Obj [("data", Js.Obj [
             ("message", Js.Str "Avatar updated successfully");
             ("avatar", Js.Str avatarPath)])])
       end)
    (fun error => send 500 (server_error "Server error updating avatar" error)).

(** [app.delete('/api/users/:id/avatar', authenticateToken, ...)]. *)
Definition delete_avatar (env : Env) (req : request) : Handler unit :=
  req_user ← authenticateToken env req;
  try_catch
    (if forbidden req_user req then
       send 403 (message "You can only delete your own avatar")
     else
       call (DbDeleteUserAvatar (req_param req)) (db_deleteUserAvatar env (req_param req));;
       send 200 (message "Avatar deleted successfully"))
    (fun error => send 500 (server_error "Server error deleting avatar" error)).

End Server.

(** ** The frontend API client (src/services/api.ts) *)

Module Client.

(** What the transport hands to axios: an HTTP response ([body] is
    [response.data]) or no response at all. *)
Inductive transport : Type :=
| HttpResponse (r : response)
| NetworkError (msg : string).

(** The error of a rejected request: [error.response] and [error.message]. *)
Record axios_error := AxiosError {
  error_response : option response;
  error_message : string
}.

Inductive settled : Type :=
| Fulfilled (r : response)
| Rejected (e : axios_error).

(** [window.location]: the current path and the assignments to [href]. *)
Record window := Window {
  location_pathname : string;
  location_href : list string
}.

(** [validateStatus: (status) => status < 500]. *)
Definition validateStatus (status : nat) : bool := (status <? 500)%nat.

(** axios's [settle]: a response is fulfilled when [validateStatus] accepts
    its status and rejected otherwise. *)
Definition settle (r : response) : settled :=
  if validateStatus (status r) then Fulfilled r
  else Rejected (AxiosError (Some r) "Request failed").

(** [(response) => response], the first argument of
    [api.interceptors.response.use]. *)
Definition onFulfilled (r : response) : response := r.

(** The second argument: it redirects, logs, and rejects again. *)
Definition onRejected (error : axios_error) (w : window) : window :=
  match error_response error with
  | Some r =>
      if (status r =? 401)%nat && negb (String.eqb (location_pathname w) "/login")
      then Window (location_pathname w) (location_href w ++ ["/login"])
      else w
  | None => w
  end.

(** A request through [api]: settle, then the response interceptor. *)
Definition api_request (t : transport) (w : window) : settled * window :=
  match t with
  | HttpResponse r =>
      match settle r with
      | Fulfilled r' => (Fulfilled (onFulfilled r'), w)
      | Rejected e => (Rejected e, onRejected e w)
      end
  | NetworkError msg =>
      let e := AxiosError None msg in (Rejected e, onRejected e w)
  end.

(** How an async method of the client ends. *)
Inductive promise : Type :=
| Resolves (v : Js.value)
| Rejects (msg : string).

(** [error.response?.data?.message || fallback]. *)
Definition error_text (e : axios_error) (fallback : string) : string :=
  match error_response e with
  | Some r =>
      match Js.or (Js.get "message" (body r)) (Js.Str fallback) with
      | Js.Str m => m
      | _ => fallback
      end
  | None => fallback
  end.

(** [users.verifyPin] of src/services/api.ts. *)
Definition verifyPin (t : transport) (w : window) : promise * window :=
  match api_request t w with
  | (Fulfilled response, w') =>
      if negb (Js.truthy (body response)) then (Rejects "Failed to verify PIN", w')
      else (Resolves (Js.get "valid" (body response)), w')
  | (Rejected e, w') => (Rejects (error_text e "Failed to verify PIN"), w')
  end.

(** [users.verifyPin] of the other copy of the client, which unwraps the
    [data] envelope: [const result = response.data.data || response.data]. *)
Definition verifyPin_unwrapping (t : transport) (w : window) : promise * window :=
  match api_request t w with
  | (Fulfilled response, w') =>
      if negb (Js.truthy (body response)) then (Rejects "Failed to verify PIN", w')
      else
        let result := Js.or (Js.get "data" (body response)) (body response) in
        (Resolves (Js.get "valid" result), w')
  | (Rejected e, w') => (Rejects (error_text e "Failed to verify PIN"), w')
  end.

End Client.

(** ** The receipt layout (generatePDFReceipt) *)

Module Receipt.

(** The arithmetic of the layout. The program runs it on doubles; the same
    code is also read over the rationals, where no operation rounds. *)
Class Arith (T : Type) := {
  num : Z -> T;
  mul : T -> T -> T;
  div : T -> T -> T;
  sub : T -> T -> T;
  leb : T -> T -> bool
}.

Global Instance double : Arith float := {
  num z := PrimFloat.of_uint63 (Uint63.of_Z z);
  mul := PrimFloat.mul;
  div := PrimFloat.div;
  sub := PrimFloat.sub;
  leb := PrimFloat.leb
}.

Global Instance exact : Arith Q := {
  num := inject_Z;
  mul := Qmult;
  div := Qdiv;
  sub := Qminus;
  leb := Qle_bool
}.

(** The canvas html2canvas returns: pixel counts, small enough for their
    conversion to a double to be exact. *)
Record canvas := Canvas { canvas_width : N; canvas_height : N }.

(** One [pdf.addImage(imgData, 'PNG', x, y, width, height)]. *)
Record image (T : Type) := Image { img_x : T; img_y : T; img_width : T; img_height : T }.
Arguments Image {T} _ _ _ _.
Arguments img_x {T} _.
Arguments img_y {T} _.
Arguments img_width {T} _.
Arguments img_height {T} _.

Record pdf (T : Type) := Pdf { pdf_pages : nat; pdf_images : list (image T) }.
Arguments Pdf {T} _ _.
Arguments pdf_pages {T} _.
Arguments pdf_images {T} _.

(** [new jsPDF('p', 'mm', 'a4')] opens the first page. *)
Definition jsPDF {T} : pdf T := Pdf 1 [].

Definition addImage {T} (p : pdf T) (x y w h : T) : pdf T :=
  Pdf (pdf_pages p) (pdf_images p ++ [Image x y w h]).

Section Layout.
Context {T : Type} `{Arith T}.

Definition imgWidth : T := num 210.
Definition pageHeight : T := num 295.

(** [(canvas.height * imgWidth) / canvas.width]. *)
Definition imgHeight (c : canvas) : T :=
  div (mul (num (Z.of_N (canvas_height c))) imgWidth) (num (Z.of_N (canvas_width c))).

(** The document [generatePDFReceipt] saves. *)
Definition generatePDFReceipt (c : canvas) : pdf T :=
  let pdf := jsPDF in
  let imgHeight := imgHeight c in
  if leb imgHeight pageHeight then
    addImage pdf (num 0) (num 0) imgWidth imgHeight
  else
    let scale := div pageHeight imgHeight in
    let scaledWidth := mul imgWidth scale in
    let scaledHeight := mul imgHeight scale in
    let xOffset := div (sub (num 210) scaledWidth) (num 2) in
    addImage pdf xOffset (num 0) scaledWidth scaledHeight.

End Layout.

End Receipt.

(** ** Serving a sequence of login requests *)

(** The login requests of a run of the server between two sweeps, served one
    after the other, each with the answers the collaborators gave at the
    time, and the log of what was answered. *)
Fixpoint serve_logins (reqs : list (Env * request)) (st : gmap string nat)
  : list (request * option response) * gmap string nat :=
  match reqs with
  | [] => ([], st)
  | (env, req) :: rest =>
      let '(r, st', _) := run (Server.post_login env req) st in
      let '(log, st'') := serve_logins rest st' in
      ((req, r) :: log, st'')
  end.



(** ** The credential of a request

    In the words of the specification: the token cookie when the request has
    one, otherwise the bearer part of the [Authorization] header. A cookie
    or a bearer part that is the empty string holds no credential. *)
Definition credential (req : request) (t : string) : Prop :=
  t <> "" /\
  (req_cookie_token req = Some t \/
   ((req_cookie_token req = None \/ req_cookie_token req = Some "") /\
    exists h, req_authorization req = Some h /\ Js.split_space h !! 1 = Some t)).

Definition registrations_disabled : response :=
  Response 403 (message "Registrations are disabled.").
Definition conflict : response :=
  Response 400 (message "Username or email already exists").
Definition admin_required : response := Response 403 (message "Admin access required").
Definition balance_invalid : response :=
  Response 400 (validation_failed ["Balance must be a positive number"]).
Definition no_token : response :=
  Response 401 (message "Access denied. No token provided.").
Definition token_expired : response :=
  Response 403 (message "Token expired. Please log in again.").
Definition invalid_token : response :=
  Response 403 (message "Invalid token.").

(** ** The self-or-admin routes *)

Inductive self_or_admin : Type :=
| GetUser
| GetUserTransactions
| PatchAvatar
| DeleteAvatar.

Definition self_or_admin_handler (route : self_or_admin) : Env -> request -> Handler unit :=
  match route with
  | GetUser => Server.get_user
  | GetUserTransactions => Server.get_user_transactions
  | PatchAvatar => Server.patch_avatar
  | DeleteAvatar => Server.delete_avatar
  end.

(** The upload middleware of the route, if it has one, lets the request
    through to the handler. *)
Definition upload_passes (route : self_or_admin) (env : Env) (req : request) : Prop :=
  match route with
  | PatchAvatar => exists f, Server.multer_single env req = Ok f
  | _ => True
  end.

(** The input of a self-or-admin request is valid: the id names a user the
    store finds, the upload carries a file, and the store carries out the
    operation. *)
Definition valid_input (route : self_or_admin) (env : Env) (req : request) : Prop :=
  match route with
  | GetUser => exists u, db_getUserById env (req_param req) = Ok (Some u)
  | GetUserTransactions => exists v, db_getUserTransactions env (req_param req) = Ok v
  | PatchAvatar =>
      exists f v, Server.multer_single env req = Ok (Some f) /\
        db_updateUserAvatar env (req_param req) ("/Uploads/avatars/" +:+ file_filename f) = Ok v
  | DeleteAvatar => db_deleteUserAvatar env (req_param req) = Ok tt
  end.

(** ** Sample data

    A small store and the requests used to run the handlers on concrete
    inputs. A password or PIN [p] is stored as [hash p]. *)

Module Sample.

Definition hash (p : string) : string := "hash:" +:+ p.

Definition alice : user :=
  User "u1" "alice" "Alice Adams" "alice@example.com" Js.Null (hash "secret1")
       (Js.Str (hash "1234")) "Active" (Js.Num 100) false Js.Null Js.Null Js.Null.

Definition bob : user :=
  User "u2" "bob" "Bob Brown" "bob@example.com" Js.Null (hash "secret2")
       Js.Null "Inactive" (Js.Num 0) false Js.Null Js.Null Js.Null.

Definition root : user :=
  User "u0" "admin" "System Administrator" "admin@example.com" Js.Null (hash "secret0")
       Js.Null "Active" (Js.Num 0) true Js.Null Js.Null Js.Null.

Definition by_username (username : string) : option user :=
  if String.eqb username "alice" then Some alice
  else if String.eqb username "bob" then Some bob
  else if String.eqb username "admin" then Some root
  else None.

Definition by_id (id : string) : option user :=
  if String.eqb id "u1" then Some alice
  else if String.eqb id "u2" then Some bob
  else if String.eqb id "u0" then Some root
  else None.

Definition verify (token : string) : verify_result :=
  if String.eqb token "token-alice" then Verified (Claims "u1" "alice" false)
  else if String.eqb token "token-admin" then Verified (Claims "u0" "admin" true)
  else if String.eqb token "token-old"
       then VerifyError (Error "TokenExpiredError" Js.Undefined "jwt expired")
  else VerifyError (Error "JsonWebTokenError" Js.Undefined "invalid signature").

Definition compare (data hashed : Js.value) : result bool :=
  match data, hashed with
  | Js.Str d, Js.Str h => Ok (String.eqb (hash d) h)
  | _, _ => Err (Error "Error" Js.Undefined "data and hash must be strings")
  end.

Definition unique_violation : error :=
  Error "error" (Js.Str "23505") "duplicate key value violates unique constraint".

Definition create (data : Js.value) : result user :=
  match by_username (match Js.get "username" data with Js.Str s => s | _ => "" end) with
  | Some _ => Err unique_violation
  | None =>
      Ok (User "u9" "carol" "Carol Clark" "carol@example.com" Js.Null (hash "secret9")
               Js.Null "Active" Js.Null false Js.Null Js.Null Js.Null)
  end.

Definition has_at (s : string) : bool :=
  match index 0 "@" s with Some _ => true | None => false end.

(** The extension of a file name without directories: from its last dot. *)
Fixpoint extname (s : string) : string :=
  match s with
  | EmptyString => EmptyString
  | String c rest =>
      match extname rest with
      | EmptyString => if Ascii.eqb c "."%char then s else EmptyString
      | ext => ext
      end
  end.

(** The collaborators over this store, with the settings row as given. *)
Definition env (settings : Js.value) : Env := {|
  jwt_verify := verify;
  jwt_sign := fun payload => "token-" +:+ claim_username payload;
  bcrypt_compare := compare;
  db_getUserByUsername := fun username => Ok (by_username username);
  db_getUserById := fun id => Ok (by_id id);
  db_getSettings := Ok settings;
  db_createUser := create;
  db_updateUserLastLogin := fun _ => Ok tt;
  db_updateUserBalance := fun _ _ => Ok Js.Null;
  db_getUserTransactions := fun _ => Ok (Js.Arr []);
  db_updateUserAvatar := fun _ _ => Ok Js.Null;
  db_deleteUserAvatar := fun _ => Ok tt;
  isEmail := has_at;
  parseFloat := fun _ => None;
  numToString := fun _ => "0";
  path_extname := extname;
  uuidv4 := "1b9d6bcd-bbfd-4b2d-9b5d-ab8dfbbd4bed"
|}.

Definition open : Env := env (Js.Obj [("allowNewUsers", Js.Bool true)]).
Definition closed : Env := env (Js.Obj [("allowNewUsers", Js.Bool false)]).

Definition credentials (username password : string) : Js.value :=
  Js.Obj [("username", Js.Str username); ("password", Js.Str password)].

(** A login request from 10.0.0.1. *)
Definition login (username password : string) : request :=
  Request "10.0.0.1" None None "" (credentials username password) None.

(** Five attempts on alice's account with a wrong password. *)
Definition five_failures : list (Env * request) :=
  replicate 5 (open, login "alice" "guess").

(** A request carrying alice's session cookie. *)
Definition as_alice (param : string) (data : Js.value) (f : option upload) : request :=
  Request "10.0.0.1" None (Some "token-alice") param data f.

(** A request carrying the administrator's token in the header. *)
Definition as_admin (param : string) (data : Js.value) : request :=
  Request "10.0.0.9" (Some "Bearer token-admin") None param data None.

Definition photo : upload := Upload "avatar" "me.PNG" "image/png" 50000.
Definition animation : upload := Upload "avatar" "me.gif" "image/gif" 50000.

Definition signup_form (username email password : string) : Js.value :=
  Js.Obj [("full_name", Js.Str "Carol Clark"); ("username", Js.Str username);
          ("email", Js.Str email); ("password", Js.Str password)].

End Sample.

(** ** The session routes of the server *)

Module Session.

(** [app.get('/api/me', authenticateToken, ...)]. *)
Definition get_me (env : Env) (req : request) : Handler unit :=
  req_user ← Server.authenticateToken env req;
  try_catch
    (user ← call (DbGetUserById (claim_id req_user))
                 (db_getUserById env (claim_id req_user));
     match user with
     | None => send 404 (message "User not found")
     | Some user =>
         send 200 (Js.Obj [("user", Js.Obj [
           ("id", Js.Str (user_id user));
           ("username", Js.Str (user_username user));
           ("full_name", Js.Str (user_full_name user));
           ("email", Js.Str (user_email user));
           ("balance", user_balance user);
           ("is_admin", Js.Bool (user_is_admin user));
           ("avatar", Js.or (user_avatar user) Js.Null);
           ("status", Js.or (Js.Str (user_status user)) (Js.Str "Active"))])])
     end)
    (fun error => send 500 (message "Server error fetching user data")).

(** [app.get('/api/session', authenticateToken, ...)]. *)
Definition get_session (env : Env) (req : request) : Handler unit :=
  _ ← Server.authenticateToken env req;
  try_catch
    (send 200 (Js.Obj [("data", Js.Obj [("isLoggedIn", Js.Bool true)])]))
    (fun error => send 500 (message "Server error checking session")).

(** [app.get('/api/settings', authenticateToken, ...)]. *)
Definition get_settings (env : Env) (req : request) : Handler unit :=
  req_user ← Server.authenticateToken env req;
  try_catch
    (if negb (claim_isAdmin req_user) then
       send 403 (message "Admin access required")
     else
       settings ← call DbGetSettings (db_getSettings env);
       send 200 (Js.Obj [("data", settings)]))
    (fun error => send 500 (server_error "Server error fetching settings" error)).

(** The routes behind [authenticateToken] that run in [Handler]. *)
Definition protected : list (Env -> request -> Handler unit) :=
  [ Server.post_verify_pin; Server.patch_balance; Server.get_user;
    Server.get_user_transactions; Server.patch_avatar; Server.delete_avatar;
    get_me; get_session; get_settings ].

End Session.

(** ** The methods of the frontend client (src/services/api.ts)

    A method awaits one request through [api]; [t] is what the transport
    answers to it. An exception thrown inside the [try] of a method is
    caught by its own [catch]. *)

Module Api.

(** [throw error] on a rejected request: the message of the axios error. *)
Definition rethrow (e : Client.axios_error) : Client.promise :=
  Client.Rejects (Client.error_message e).

(** [auth.login]. *)
Definition login (t : Client.transport) (w : Client.window)
  : Client.promise * Client.window :=
  match Client.api_request t w with
  | (Client.Fulfilled response, w') =>
      let user := Js.or (Js.get "user" (body response))
                        (Js.get "user" (Js.get "data" (body response))) in
      if negb (Js.truthy user) then (Client.Rejects "Login failed. Please try again.", w')
      else (Client.Resolves user, w')
  | (Client.Rejected e, w') =>
      (Client.Rejects (Client.error_text e "Login failed. Please try again."), w')
  end.

(** The shape shared by [auth.getCurrentUser], [auth.updateUser],
    [users.updateStatus], [users.updateBalance] and [users.getById]:
    [response.data.user], or the error rethrown as it is. *)
Definition expect_user (t : Client.transport) (w : Client.window)
  : Client.promise * Client.window :=
  match Client.api_request t w with
  | (Client.Fulfilled response, w') =>
      if negb (Js.truthy (Js.get "user" (body response)))
      then (Client.Rejects "User data missing in response", w')
      else (Client.Resolves (Js.get "user" (body response)), w')
  | (Client.Rejected e, w') => (rethrow e, w')
  end.

Definition getCurrentUser := expect_user.
Definition updateStatus := expect_user.
Definition updateBalance := expect_user.
Definition getById := expect_user.

(** [auth.isLoggedIn]. *)
Definition isLoggedIn (t : Client.transport) (w : Client.window)
  : Client.promise * Client.window :=
  match Client.api_request t w with
  | (Client.Fulfilled response, w') =>
      (Client.Resolves (Js.or (Js.get "isLoggedIn" (body response)) (Js.Bool false)), w')
  | (Client.Rejected e, w') => (Client.Resolves (Js.Bool false), w')
  end.

(** The shape shared by both branches of [users.create] and by
    [users.updateAvatar]: [response.data.user], or a new error with the
    server's message or [fallback]. *)
Definition expect_user_or (fallback : string) (t : Client.transport) (w : Client.window)
  : Client.promise * Client.window :=
  match Client.api_request t w with
  | (Client.Fulfilled response, w') =>
      if negb (Js.truthy (Js.get "user" (body response)))
      then (Client.Rejects fallback, w')
      else (Client.Resolves (Js.get "user" (body response)), w')
  | (Client.Rejected e, w') => (Client.Rejects (Client.error_text e fallback), w')
  end.

(** [users.create]: the answer of [/signup] when [isSignup] is set, of
    [/users] otherwise, read the same way. *)
Definition create := expect_user_or "Failed to create user".
Definition updateAvatar := expect_user_or "Failed to update avatar".

(** The shape shared by [users.getAll], [transactions.create],
    [transactions.getByUserId], [settings.getAll] and [settings.update]:
    [response.data] as it is. *)
Definition expect_data (t : Client.transport) (w : Client.window)
  : Client.promise * Client.window :=
  match Client.api_request t w with
  | (Client.Fulfilled response, w') =>
      if negb (Js.truthy (body response))
      then (Client.Rejects "No data received from server", w')
      else (Client.Resolves (body response), w')
  | (Client.Rejected e, w') => (rethrow e, w')
  end.

Definition users_getAll := expect_data.
Definition transactions_getByUserId := expect_data.

(** [transactions.getAll]: any failure becomes the empty list. *)
Definition transactions_getAll (t : Client.transport) (w : Client.window)
  : Client.promise * Client.window :=
  match Client.api_request t w with
  | (Client.Fulfilled response, w') =>
      if negb (Js.truthy (body response)) then (Client.Resolves (Js.Arr []), w')
      else (Client.Resolves (body response), w')
  | (Client.Rejected e, w') => (Client.Resolves (Js.Arr []), w')
  end.

(** [users.delete], [users.deleteAvatar], [transactions.delete] and
    [auth.logout]: nothing is read from the response. *)
Definition expect_nothing (t : Client.transport) (w : Client.window)
  : Client.promise * Client.window :=
  match Client.api_request t w with
  | (Client.Fulfilled response, w') => (Client.Resolves Js.Undefined, w')
  | (Client.Rejected e, w') => (rethrow e, w')
  end.

Definition deleteAvatar := expect_nothing.

End Api.

(** ** The remaining routes of the server

    The admin routes, the transaction routes and logout call parts of the
    data-access module that the routes above do not use. Their handlers run
    in [Route], which is [Handler] with a trace that also records these
    calls. *)

Module Admin.

(** The further calls: the rest of the data-access module, and
    [res.clearCookie]. *)
Inductive op : Type :=
| GetUsers
| DeleteUser (id : string)
| UpdateUserStatus (id : string) (status : Js.value)
| CreateTransaction (data : Js.value)
| GetTransactions
| DeleteTransaction (id : string)
| UpdateSettings (data : Js.value)
| ClearCookie (name : string).

(** Their answers during one request, and validator.js's [isISO8601]. *)
Record Store := {
  db_getUsers : result Js.value;
  db_deleteUser : string -> result unit;
  db_updateUserStatus : string -> Js.value -> result Js.value;
  db_createTransaction : Js.value -> result Js.value;
  db_getTransactions : result Js.value;
  db_deleteTransaction : string -> result Js.value;
  db_updateSettings : Js.value -> result Js.value;
  isISO8601 : string -> bool
}.

Definition Route (A : Type) : Type :=
  gmap string nat -> outcome A * gmap string nat * list (event + op).

Global Instance Route_ret : MRet Route :=
  fun A a st => (Val a, st, []).

Global Instance Route_bind : MBind Route :=
  fun A B f m st =>
    match m st with
    | (Val a, st', t) => let '(o, st'', t') := f a st' in (o, st'', (t ++ t')%list)
    | (Sent r, st', t) => (Sent r, st', t)
    | (Thrown e, st', t) => (Thrown e, st', t)
    end.

(** A middleware or call of [Handler], run inside a route. *)
Definition lift {A} (h : Handler A) : Route A :=
  fun st => let '(o, st', t) := h st in (o, st', map inl t).

Definition attempt {A} (m : Route A) (h : error -> Route A) : Route A :=
  fun st =>
    match m st with
    | (Thrown e, st', t) => let '(o, st'', t') := h e st' in (o, st'', (t ++ t')%list)
    | r => r
    end.

Definition answer {A} (code : nat) (b : Js.value) : Route A :=
  fun st => (Sent (Response code b), st, []).

Definition invoke {A} (o : op) (r : result A) : Route A :=
  fun st => (match r with Ok a => Val a | Err e => Thrown e end, st, [inr o]).

Definition serve (h : Route unit) (st : gmap string nat)
  : option response * gmap string nat * list (event + op) :=
  match h st with
  | (Sent r, st', t) => (Some r, st', t)
  | (Val _, st', t) => (None, st', t)
  | (Thrown _, st', t) => (None, st', t)
  end.

(** A validation chain without sanitizer: the field, its test, and the
    message of [withMessage]. *)
Record rule := Rule {
  rule_field : string;
  rule_test : Js.value -> bool;
  rule_message : string
}.

(** [validationResult(req).array()], as messages. *)
Definition failures (rules : list rule) (b : Js.value) : list string :=
  flat_map (fun r => if rule_test r (Js.get (rule_field r) b) then [] else [rule_message r])
           rules.

(** [isIn(options)]. *)
Definition isIn (env : Env) (options : list string) (v : Js.value) : bool :=
  bool_decide (toString env v ∈ options).

(** [isBoolean()]: one of the four strings validator.js accepts. *)
Definition isBoolean (env : Env) (v : Js.value) : bool :=
  isIn env ["true"; "false"; "1"; "0"] v.

(** [app.get('/api/users', authenticateToken, ...)]. *)
Definition get_users (env : Env) (store : Store) (req : request) : Route unit :=
  req_user ← lift (Server.authenticateToken env req);
  attempt
    (if negb (claim_isAdmin req_user) then
       answer 403 (message "Admin access required")
     else
       users ← invoke GetUsers (db_getUsers store);
       answer 200 (Js.Obj [("data", users)]))
    (fun error => answer 500 (server_error "Server error fetching users" error)).

(** [app.delete('/api/users/:id', authenticateToken, ...)]. *)
Definition delete_user (env : Env) (store : Store) (req : request) : Route unit :=
  req_user ← lift (Server.authenticateToken env req);
  attempt
    (if negb (claim_isAdmin req_user) then
       answer 403 (message "Admin access required")
     else
       invoke (DeleteUser (req_param req)) (db_deleteUser store (req_param req));;
       answer 200 (message "User deleted successfully"))
    (fun error => answer 500 (server_error "Server error deleting user" error)).

Definition status_rules (env : Env) : list rule :=
  [ Rule "status" (isIn env ["Active"; "Inactive"]) "Status must be Active or Inactive" ].

(** [app.patch('/api/users/:id/status', authenticateToken, ...)]. *)
Definition patch_status (env : Env) (store : Store) (req : request) : Route unit :=
  req_user ← lift (Server.authenticateToken env req);
  let errors := failures (status_rules env) (req_body req) in
  attempt
    (if negb (claim_isAdmin req_user) then
       answer 403 (message "Admin access required")
     else if negb (bool_decide (errors = [])) then
       answer 400 (validation_failed errors)
     else
       user ← invoke (UpdateUserStatus (req_param req) (Js.get "status" (req_body req)))
                     (db_updateUserStatus store (req_param req)
                                          (Js.get "status" (req_body req)));
       answer 200 (Js.Obj [("data", user)]))
    (fun error => answer 500 (server_error "Server error updating user status" error)).

(** [app.post('/api/logout', authenticateToken, ...)]. *)
Definition post_logout (env : Env) (req : request) : Route unit :=
  _ ← lift (Server.authenticateToken env req);
  attempt
    (invoke (ClearCookie "token") (Ok tt);;
     answer 200 (message "Logged out successfully"))
    (fun error => answer 500 (message "Server error during logout")).

Definition transaction_rules (env : Env) (store : Store) : list rule :=
  [ Rule "user_id" (run_check env notEmpty) "User ID is required";
    Rule "type" (isIn env ["Deposit"; "Withdrawal"; "Transfer"; "Bill Pay"])
         "Valid transaction type is required";
    Rule "amount" (run_check env (isFloat (1 # 100))) "Amount must be a positive number";
    Rule "date_time" (fun v => isISO8601 store (toString env v))
         "Valid date and time is required" ].

(** [app.post('/api/transactions', authenticateToken, ...)]. *)
Definition post_transactions (env : Env) (store : Store) (req : request) : Route unit :=
  req_user ← lift (Server.authenticateToken env req);
  let errors := failures (transaction_rules env store) (req_body req) in
  attempt
    (if negb (bool_decide (errors = [])) then
       answer 400 (validation_failed errors)
     else if negb (claim_isAdmin req_user)
             && negb (Js.eq_str (Js.get "user_id" (req_body req)) (claim_id req_user)) then
       answer 403 (message "You can only create transactions for your own account")
     else
       transaction ← invoke (CreateTransaction (req_body req))
                            (db_createTransaction store (req_body req));
       answer 201 (Js.Obj [("data", transaction)]))
    (fun error => answer 500 (server_error "Server error creating transaction" error)).

(** [app.get('/api/transactions', authenticateToken, ...)]. *)
Definition get_transactions (env : Env) (store : Store) (req : request) : Route unit :=
  req_user ← lift (Server.authenticateToken env req);
  attempt
    (transactions ←
       (if claim_isAdmin req_user
        then invoke GetTransactions (db_getTransactions store)
        else lift (call (DbGetUserTransactions (claim_id req_user))
                        (db_getUserTransactions env (claim_id req_user))));
     answer 200 (Js.Obj [("data", transactions)]))
    (fun error => answer 500 (server_error "Server error fetching transactions" error)).

(** [app.delete('/api/transactions/:id', authenticateToken, ...)]. *)
Definition delete_transaction (env : Env) (store : Store) (req : request) : Route unit :=
  req_user ← lift (Server.authenticateToken env req);
  attempt
    (if negb (claim_isAdmin req_user) then
       answer 403 (message "Admin access required")
     else
       result ← invoke (DeleteTransaction (req_param req))
                       (db_deleteTransaction store (req_param req));
       answer 200 (Js.Obj [("data", result)]))
    (fun error => answer 500 (server_error "Server error deleting transaction" error)).

Definition settings_rules (env : Env) : list rule :=
  [ Rule "systemName" (run_check env notEmpty) "System name is required";
    Rule "maintenance" (isBoolean env) "Maintenance must be a boolean";
    Rule "allowNewUsers" (isBoolean env) "AllowNewUsers must be a boolean";
    Rule "contactEmail" (run_check env isEmailCheck) "Valid contact email is required" ].

(** [app.patch('/api/settings', authenticateToken, ...)]. *)
Definition patch_settings (env : Env) (store : Store) (req : request) : Route unit :=
  req_user ← lift (Server.authenticateToken env req);
  let errors := failures (settings_rules env) (req_body req) in
  attempt
    (if negb (claim_isAdmin req_user) then
       answer 403 (message "Admin access required")
     else if negb (bool_decide (errors = [])) then
       answer 400 (validation_failed errors)
     else
       settings ← invoke (UpdateSettings (req_body req))
                         (db_updateSettings store (req_body req));
       answer 200 (Js.Obj [("data", settings)]))
    (fun error => answer 500 (server_error "Server error updating settings" error)).

(** The admin-only routes that run in [Route]. *)
Definition admin_only : list (Env -> Store -> request -> Route unit) :=
  [ get_users; delete_user; patch_status; delete_transaction; patch_settings ].

(** A store that carries out every operation. *)
Definition sample : Store := {|
  db_getUsers := Ok (Js.Arr []);
  db_deleteUser := fun _ => Ok tt;
  db_updateUserStatus := fun _ _ => Ok Js.Null;
  db_createTransaction := fun data => Ok data;
  db_getTransactions := Ok (Js.Arr []);
  db_deleteTransaction := fun _ => Ok Js.Null;
  db_updateSettings := fun data => Ok data;
  isISO8601 := fun s => negb (String.eqb s "")
|}.

Definition deposit (user_id : Js.value) : Js.value :=
  Js.Obj [("user_id", user_id); ("type", Js.Str "Deposit");
          ("amount", Js.Num 25); ("date_time", Js.Str "2025-01-31T12:00:00Z")].

End Admin.

(** ** The auth context of the frontend (AuthProvider) *)

Module AuthContext.

(** [a ?? b]. *)
Definition nullish (a b : Js.value) : Js.value :=
  match a with
  | Js.Undefined | Js.Null => b
  | _ => a
  end.

(** [normalizeUser]. *)
Definition normalizeUser (user : Js.value) : Js.value :=
  Js.Obj [
    ("id", Js.get "id" user);
    ("username", Js.get "username" user);
    ("fullName", Js.or (Js.or (Js.get "full_name" user) (Js.get "fullName" user)) (Js.Str ""));
    ("email", Js.get "email" user);
    ("isAdmin", nullish (nullish (Js.get "is_admin" user) (Js.get "isAdmin" user))
                        (Js.Bool false));
    ("balance", Js.get "balance" user);
    ("avatar", Js.get "avatar" user);
    ("status", Js.get "status" user) ].

(** What the provider shows: [Welcome name] is the success toast
    [Welcome back, ${name}!]. *)
Inductive toast : Type :=
| Welcome (name : Js.value)
| ToastError (text : string)
| ToastInfo (text : string).

(** The state of the provider, with the calls to [navigate] and [toast]. *)
Record state := State {
  currentUser : Js.value;
  loading : bool;
  navigated : list string;
  toasts : list toast
}.

(** [login] of the provider, on the answer to [auth.login]. *)
Definition login (t : Client.transport) (w : Client.window) (s : state)
  : Client.promise * Client.window * state :=
  match Api.login t w with
  | (Client.Resolves rawUser, w') =>
      let user := normalizeUser rawUser in
      (Client.Resolves user, w',
       State user false
             (navigated s ++ [if Js.truthy (Js.get "isAdmin" user) then "/admin"
                              else "/dashboard"])
             (toasts s ++ [Welcome (Js.or (Js.get "fullName" user) (Js.get "username" user))]))
  | (Client.Rejects msg, w') =>
      (Client.Rejects msg, w',
       State (currentUser s) false (navigated s)
             (toasts s ++ [ToastError (if String.eqb msg "" then "Login failed. Please try again."
                                       else msg)]))
  end.

(** [fetchCurrentUser] of the mount effect, on the answer to
    [auth.getCurrentUser]. *)
Definition fetchCurrentUser (t : Client.transport) (w : Client.window) (s : state)
  : Client.window * state :=
  match Api.getCurrentUser t w with
  | (Client.Resolves rawUser, w') =>
      (w', State (if Js.truthy rawUser then normalizeUser rawUser else currentUser s)
                 false (navigated s) (toasts s))
  | (Client.Rejects _, w') => (w', State Js.Null false (navigated s) (toasts s))
  end.

(** [logout] of the provider, on the answer to [auth.logout]. *)
Definition logout (t : Client.transport) (w : Client.window) (s : state)
  : Client.window * state :=
  match Api.expect_nothing t w with
  | (Client.Resolves _, w') =>
      (w', State Js.Null (loading s) (navigated s ++ ["/login"])
                 (toasts s ++ [ToastInfo "You have been logged out."]))
  | (Client.Rejects _, w') =>
      (w', State (currentUser s) (loading s) (navigated s)
                 (toasts s ++ [ToastError "Failed to log out. Please try again."]))
  end.


End AuthContext.

(** * Theorems *)

(** The string helpers on the inputs the handlers meet. *)
Example split_bearer : Js.split_space "Bearer abc.def" = ["Bearer"; "abc.def"].
Proof. reflexivity. Qed.

Example split_no_space : Js.index 1 (Js.split_space "abc.def") = Js.Undefined.
Proof. reflexivity. Qed.

Example split_trailing_space : Js.index 1 (Js.split_space "Bearer ") = Js.Str "".
Proof. reflexivity. Qed.

Example trim_both_ends : trim "  alice " = "alice".
Proof. reflexivity. Qed.

Example trim_blank : trim "   " = "".
Proof. reflexivity. Qed.

Ltac unfold_handler :=
  unfold run, Server.post_login, Server.post_signup, Server.post_users,
    Server.post_verify_pin, Server.patch_balance, Server.get_user,
    Server.get_user_transactions, Server.patch_avatar, Server.delete_avatar,
    Server.create_catch, Server.upload_single, Server.error_handler, try_catch,
    send, call, emit, loginAttempts_get,
    loginAttempts_set, loginAttempts_delete, mbind, Handler_bind, mret,
    Handler_ret in *.

Section Login.
Variables (env : Env) (req : request) (st : gmap string nat).


End Login.





(** The sweep puts every address back under the limit: after it, the same
    sixth attempt with the right password logs in. *)
Lemma sweep_clears st ip : default 0 (sweep st !! ip) = 0.
Proof. unfold sweep. by rewrite lookup_empty. Qed.

Example login_after_sweep :
  status <$> (run (Server.post_login Sample.open (Sample.login "alice" "secret1"))
                  (sweep (serve_logins Sample.five_failures ∅).2)).1.1 = Some 200.
Proof. reflexivity. Qed.

Section Middleware.
Variables (env : Env) (req : request) (st : gmap string nat).

Lemma eqb_empty_false (t : string) : t <> "" -> String.eqb t "" = false.
Proof. intros Hne. by apply String.eqb_neq. Qed.

(** The middleware verifies the credential of the request and nothing
    else. *)
Lemma authenticateToken_credential t :
  credential req t ->
  Server.authenticateToken env req st =
    (match jwt_verify env t with
     | Verified user => Val user
     | VerifyError e =>
         Sent (if String.eqb (err_name e) "TokenExpiredError"
               then token_expired else invalid_token)
     end, st, [JwtVerify t]).
Proof.
  intros [Hne [Hcookie|[Hcookie (h & Hheader & Hpiece)]]];
    unfold Server.authenticateToken, Js.or, Js.index;
    unfold_handler; rewrite ?Hcookie, ?Hheader; simpl.
  - do 2 (rewrite ?(eqb_empty_false _ Hne); simpl).
    destruct (jwt_verify env t) as [user|e]; [done|].
    by destruct (String.eqb (err_name e) "TokenExpiredError").
  - assert (Hh : String.eqb h "" = false).
    { destruct h; [done|]. done. }
    assert (Hnone : Js.truthy (Js.of_option (req_cookie_token req)) = false).
    { by destruct Hcookie as [-> | ->]. }
    rewrite Hnone, Hh. simpl. rewrite Hpiece. simpl.
    do 2 (rewrite ?(eqb_empty_false _ Hne); simpl).
    destruct (jwt_verify env t) as [user|e]; [done|].
    by destruct (String.eqb (err_name e) "TokenExpiredError").
Qed.

(** Without a credential the request is answered 401 and no token is
    verified. *)
Lemma authenticateToken_no_credential :
  (forall t, ~ credential req t) ->
  Server.authenticateToken env req st = (Sent no_token, st, []).
Proof.
  intros Hnone. unfold Server.authenticateToken, Js.or, Js.index. unfold_handler.
  destruct (req_cookie_token req) as [c|] eqn:Hcookie; simpl.
  - destruct (String.eqb_spec c "") as [->|Hc]; simpl.
    + destruct (req_authorization req) as [h|] eqn:Hheader; simpl; [|done].
      destruct (String.eqb_spec h "") as [->|Hh]; simpl; [done|].
      destruct (Js.split_space h !! 1) as [t|] eqn:Hpiece; simpl; [|done].
      destruct (String.eqb_spec t "") as [->|Ht]; simpl; [done|].
      exfalso. apply (Hnone t). split; [done|]. right. split; [by right|]. by exists h.
    + exfalso. apply (Hnone c). split; [done|]. by left.
  - destruct (req_authorization req) as [h|] eqn:Hheader; simpl; [|done].
    destruct (String.eqb_spec h "") as [->|Hh]; simpl; [done|].
    destruct (Js.split_space h !! 1) as [t|] eqn:Hpiece; simpl; [|done].
    destruct (String.eqb_spec t "") as [->|Ht]; simpl; [done|].
    exfalso. apply (Hnone t). split; [done|]. right. split; [by left|]. by exists h.
Qed.

End Middleware.

(** C2. The middleware takes the credential from the cookie when one is
    there and from the Authorization header otherwise. With neither it
    answers 401. A credential that fails verification is answered 403, with
    one message when the token has expired and another one for every other
    failure. A credential that verifies leaves the decoded claims in
    [req.user] and the chain goes on, no response being sent. *)
Theorem authenticateToken_contract env req st :
  (req_cookie_token req = None -> req_authorization req = None ->
   Server.authenticateToken env req st = (Sent no_token, st, [])) /\
  (forall t e, credential req t -> jwt_verify env t = VerifyError e ->
     err_name e = "TokenExpiredError" ->
     Server.authenticateToken env req st = (Sent token_expired, st, [JwtVerify t])) /\
  (forall t e, credential req t -> jwt_verify env t = VerifyError e ->
     err_name e <> "TokenExpiredError" ->
     Server.authenticateToken env req st = (Sent invalid_token, st, [JwtVerify t])) /\
  (forall t user, credential req t -> jwt_verify env t = Verified user ->
     Server.authenticateToken env req st = (Val user, st, [JwtVerify t])) /\
  status no_token = 401 /\ status token_expired = 403 /\ status invalid_token = 403 /\
  body token_expired <> body invalid_token.
Proof.
  split_and!; try done.
  - intros Hcookie Hheader. apply authenticateToken_no_credential.
    intros t [_ [Hc|[_ (h & Hh & _)]]]; congruence.
  - intros t e Hcred Hverify Hname.
    rewrite (authenticateToken_credential _ _ _ _ Hcred), Hverify, Hname. done.
  - intros t e Hcred Hverify Hname.
    rewrite (authenticateToken_credential _ _ _ _ Hcred), Hverify.
    by apply String.eqb_neq in Hname as ->.
  - intros t user Hcred Hverify.
    by rewrite (authenticateToken_credential _ _ _ _ Hcred), Hverify.
Qed.

Lemma authenticateToken_contract_witness :
  Server.authenticateToken Sample.open (Sample.as_alice "u1" Js.Null None) ∅
    = (Val (Claims "u1" "alice" false), ∅, [JwtVerify "token-alice"]) /\
  Server.authenticateToken Sample.open
      (Request "10.0.0.1" (Some "Bearer token-old") None "u1" Js.Null None) ∅
    = (Sent token_expired, ∅, [JwtVerify "token-old"]) /\
  Server.authenticateToken Sample.open
      (Request "10.0.0.1" (Some "Bearer forged") (Some "") "u1" Js.Null None) ∅
    = (Sent invalid_token, ∅, [JwtVerify "forged"]) /\
  Server.authenticateToken Sample.open
      (Request "10.0.0.1" None None "u1" Js.Null None) ∅
    = (Sent no_token, ∅, []).
Proof.
  split_and!.
  - apply (proj1 (proj2 (proj2 (proj2 (authenticateToken_contract _ _ _))))).
    + split; [discriminate|]. left. reflexivity.
    + reflexivity.
  - apply (proj1 (proj2 (authenticateToken_contract _ _ _))
             "token-old" (Error "TokenExpiredError" Js.Undefined "jwt expired")).
    + split; [discriminate|]. right. split; [left; reflexivity|].
      exists "Bearer token-old". split; reflexivity.
    + reflexivity.
    + reflexivity.
  - apply (proj1 (proj2 (proj2 (authenticateToken_contract _ _ _)))
             "forged" (Error "JsonWebTokenError" Js.Undefined "invalid signature")).
    + split; [discriminate|]. right. split; [right; reflexivity|].
      exists "Bearer forged". split; reflexivity.
    + reflexivity.
    + discriminate.
  - apply (proj1 (authenticateToken_contract _ _ _)); reflexivity.
Defined.

(** The middleware never touches the map of login attempts and calls
    nothing but the token verifier. *)
Lemma authenticateToken_frame env req st o st' t :
  Server.authenticateToken env req st = (o, st', t) ->
  st' = st /\ (t = [] \/ exists token, t = [JwtVerify token]).
Proof.
  unfold Server.authenticateToken. unfold_handler. intros Hrun.
  repeat (case_match; simplify_eq/=); eauto.
Qed.

(** C10 (as amended). A login request that passes field validation, comes
    from an address under the rate limit and names an existing user whose
    status is not 'Active' is answered 403; the only call made is the lookup
    of the user, so the password is not compared, no token is signed and no
    cookie is set; the map of login attempts is left as it was. *)
Theorem login_inactive env req st data u :
  default 0 (st !! req_ip req) < 5 ->
  run_chains env Server.login_chains (req_body req) = (data, []) ->
  db_getUserByUsername env (toString env (Js.get "username" data)) = Ok (Some u) ->
  user_status u <> "Active" ->
  run (Server.post_login env req) st =
    (Some (Response 403 (message "Your account is inactive. Please contact support.")),
     st, [DbGetUserByUsername (toString env (Js.get "username" data))]).
Proof.
  intros Hunder Hvalid Hfound Hstatus. unfold_handler.
  destruct (5 <=? default 0 (st !! req_ip req))%nat eqn:Hle.
  { apply Nat.leb_le in Hle. lia. }
  rewrite Hvalid. simpl. rewrite Hfound. simpl.
  apply String.eqb_neq in Hstatus as ->. done.
Qed.

Lemma login_inactive_witness :
  run (Server.post_login Sample.open (Sample.login "bob" "secret2")) ∅ =
    (Some (Response 403 (message "Your account is inactive. Please contact support.")),
     ∅, [DbGetUserByUsername "bob"]).
Proof.
  apply (login_inactive Sample.open (Sample.login "bob" "secret2") ∅
           (Sample.credentials "bob" "secret2") Sample.bob).
  - vm_compute. lia.
  - reflexivity.
  - reflexivity.
  - discriminate.
Defined.

(** C10 as stated fails when the request does not pass field validation:
    bob exists and is inactive, the address is under the limit, and a login
    for bob with an empty password is answered 400, not 403. *)
Lemma login_inactive_empty_password :
  Sample.by_username "bob" = Some Sample.bob /\
  user_status Sample.bob <> "Active" /\
  default 0 ((∅ : gmap string nat) !! req_ip (Sample.login "bob" "")) < 5 /\
  run (Server.post_login Sample.open (Sample.login "bob" "")) ∅ =
    (Some (Response 400 (validation_failed ["Password is required"])), ∅, []).
Proof.
  split_and!; [reflexivity|discriminate|vm_compute; lia|reflexivity].
Qed.

(** C4 (as amended). A signup request whose payload passes field validation
    is rejected with 403 whenever the registration-allowed setting read from
    the store is false, and no user is created. A payload that fails field
    validation is rejected with 400 before the setting is read, whatever the
    setting is. *)
Theorem signup_registration_closed env req st :
  (forall data settings,
      run_chains env Server.create_chains (req_body req) = (data, []) ->
      db_getSettings env = Ok settings ->
      Js.get "allowNewUsers" settings = Js.Bool false ->
      run (Server.post_signup env req) st = (Some registrations_disabled, st, [DbGetSettings])) /\
  (forall data errors,
      run_chains env Server.create_chains (req_body req) = (data, errors) ->
      errors <> [] ->
      run (Server.post_signup env req) st =
        (Some (Response 400 (validation_failed errors)), st, [])).
Proof.
  split.
  - intros data settings Hvalid Hsettings Hclosed. unfold_handler.
    rewrite Hvalid, Hsettings. simpl. rewrite Hclosed.
    destruct settings; try discriminate Hclosed. done.
  - intros data errors Hchains Hinvalid. unfold_handler. rewrite Hchains.
    rewrite bool_decide_eq_false_2 by done. done.
Qed.

Lemma signup_registration_closed_witness :
  run (Server.post_signup Sample.closed
         (Request "10.0.0.1" None None ""
            (Sample.signup_form "carol" "carol@example.com" "secret9") None)) ∅
    = (Some registrations_disabled, ∅, [DbGetSettings]) /\
  run (Server.post_signup Sample.open
         (Request "10.0.0.1" None None ""
            (Sample.signup_form "carol" "carol@example.com" "short") None)) ∅
    = (Some (Response 400 (validation_failed ["Password must be at least 6 characters"])),
       ∅, []).
Proof.
  split.
  - apply (proj1 (signup_registration_closed _ _ _)
             (Sample.signup_form "carol" "carol@example.com" "secret9")
             (Js.Obj [("allowNewUsers", Js.Bool false)])); reflexivity.
  - apply (proj2 (signup_registration_closed _ _ _)
             (Sample.signup_form "carol" "carol@example.com" "short"));
      [reflexivity|discriminate].
Defined.

(** C4 as stated fails on a payload that does not pass field validation:
    with registration closed, a signup with a malformed email is answered
    400, not 403, and the setting is not read. *)
Lemma signup_closed_invalid_payload :
  db_getSettings Sample.closed = Ok (Js.Obj [("allowNewUsers", Js.Bool false)]) /\
  run (Server.post_signup Sample.closed
         (Request "10.0.0.1" None None ""
            (Sample.signup_form "carol" "carol.example.com" "secret9") None)) ∅
    = (Some (Response 400 (validation_failed ["Valid email is required"])), ∅, []).
Proof. split; reflexivity. Qed.

(** C5. When a user-creation request, on the signup route or on the admin
    route, reaches the store and [db.createUser] fails with the
    unique-constraint violation (code 23505), the response is HTTP 400 with
    the one conflict message, which names neither field and does not carry
    the store's error text; it is not a 500. *)
Theorem create_user_conflict env req st r st' t data e :
  run (Server.post_signup env req) st = (r, st', t) \/
  run (Server.post_users env req) st = (r, st', t) ->
  DbCreateUser data ∈ t ->
  db_createUser env data = Err e ->
  err_code e = Js.Str "23505" ->
  r = Some conflict /\ status conflict = 400 /\
  body conflict = Js.Obj [("message", Js.Str "Username or email already exists")].
Proof.
  intros Hrun Hcalled Hfails Hcode. split; [|done].
  destruct Hrun as [Hrun|Hrun]; revert Hrun; unfold_handler;
    destruct (run_chains env Server.create_chains (req_body req)) as [data' errors].
  - intros Hrun.
    repeat (case_match; simplify_eq/=); set_unfold in Hcalled;
      destruct_or?; simplify_eq/=; try done;
      match goal with
      | H : db_createUser _ _ = _ |- _ => rewrite Hfails in H; simplify_eq/=
      end;
      rewrite ?Hcode in *; done.
  - destruct (Server.authenticateToken env req st) as [[o st1] t1] eqn:Hauth.
    destruct (authenticateToken_frame _ _ _ _ _ _ Hauth) as [-> [->|[token ->]]];
      intros Hrun;
      repeat (case_match; simplify_eq/=); set_unfold in Hcalled;
      destruct_or?; simplify_eq/=; try done;
      match goal with
      | H : db_createUser _ _ = _ |- _ => rewrite Hfails in H; simplify_eq/=
      end;
      rewrite ?Hcode in *; done.
Qed.

Lemma create_user_conflict_witness :
  run (Server.post_signup Sample.open
         (Request "10.0.0.1" None None ""
            (Sample.signup_form "alice" "alice@example.org" "secret9") None)) ∅
    = (Some conflict, ∅,
       [DbGetSettings;
        DbCreateUser (Sample.signup_form "alice" "alice@example.org" "secret9")]) /\
  run (Server.post_users Sample.open
         (Sample.as_admin "" (Sample.signup_form "alice" "alice@example.org" "secret9"))) ∅
    = (Some conflict, ∅,
       [JwtVerify "token-admin";
        DbCreateUser (Sample.signup_form "alice" "alice@example.org" "secret9")]) /\
  status conflict = 400.
Proof.
  split_and!; [reflexivity|reflexivity|].
  apply (create_user_conflict Sample.open
           (Sample.as_admin "" (Sample.signup_form "alice" "alice@example.org" "secret9"))
           ∅ (Some conflict) ∅
           [JwtVerify "token-admin";
            DbCreateUser (Sample.signup_form "alice" "alice@example.org" "secret9")]
           (Sample.signup_form "alice" "alice@example.org" "secret9")
           Sample.unique_violation).
  - right. reflexivity.
  - set_solver.
  - reflexivity.
  - reflexivity.
Defined.

(** C6 (as amended). An authenticated PATCH /api/users/:id/balance whose
    body carries a negative balance is answered 400 when the caller is an
    admin; when the caller is not an admin it is answered 403, the admin
    check coming before the validation result is read. The store is not
    called either way. *)
Theorem balance_negative env req st c t q :
  Server.authenticateToken env req st = (Val c, st, t) ->
  Js.get "balance" (req_body req) = Js.Num q ->
  (q < 0)%Q ->
  run (Server.patch_balance env req) st =
    (Some (if claim_isAdmin c then balance_invalid else admin_required), st, t).
Proof.
  intros Hauth Hbalance Hneg. unfold_handler. rewrite Hauth.
  unfold Server.balance_chains, run_chains, run_chain. simpl. rewrite Hbalance.
  assert (Hcheck : Qle_bool 0 q = false).
  { apply not_true_is_false. intros Hle. apply Qle_bool_iff in Hle.
    exact (Qlt_not_le _ _ Hneg Hle). }
  rewrite Hcheck. simpl. destruct (claim_isAdmin c); simpl; by rewrite ?app_nil_r.
Qed.

Lemma balance_negative_witness :
  run (Server.patch_balance Sample.open
         (Sample.as_admin "u1" (Js.Obj [("balance", Js.Num (-5))]))) ∅
    = (Some balance_invalid, ∅, [JwtVerify "token-admin"]).
Proof.
  apply (balance_negative Sample.open
           (Sample.as_admin "u1" (Js.Obj [("balance", Js.Num (-5))])) ∅
           (Claims "u0" "admin" true) [JwtVerify "token-admin"] (-5)%Q).
  - reflexivity.
  - reflexivity.
  - reflexivity.
Defined.

(** C6 as stated fails for a caller who is not an admin: alice's request
    with balance -5 is answered 403, not 400. *)
Lemma balance_negative_non_admin :
  run (Server.patch_balance Sample.open
         (Sample.as_alice "u1" (Js.Obj [("balance", Js.Num (-5))]) None)) ∅
    = (Some admin_required, ∅, [JwtVerify "token-alice"]) /\
  status admin_required = 403.
Proof. split; reflexivity. Qed.

(** C3 (as amended). On the self-or-admin routes (GET /api/users/:id, GET
    /api/users/:userId/transactions, PATCH and DELETE /api/users/:id/avatar)
    an authenticated caller who is not an admin and targets another user's
    id is answered 403, provided, on the avatar PATCH, that the upload
    middleware lets the request through. When the target id is the caller's
    own, the response is never 403, and with valid input the request
    succeeds with 200. *)
Theorem self_or_admin_policy route env req st c t :
  Server.authenticateToken env req st = (Val c, st, t) ->
  claim_isAdmin c = false ->
  (req_param req <> claim_id c ->
   upload_passes route env req ->
   exists b t',
     run (self_or_admin_handler route env req) st = (Some (Response 403 b), st, t')) /\
  (req_param req = claim_id c ->
   (forall r st' t',
       run (self_or_admin_handler route env req) st = (Some r, st', t') -> status r <> 403) /\
   (valid_input route env req ->
    exists b t',
      run (self_or_admin_handler route env req) st = (Some (Response 200 b), st, t'))).
Proof.
  intros Hauth Hrole. split_and!.
  - intros Hother Hupload. apply String.eqb_neq in Hother.
    destruct route; simpl in *; unfold_handler; rewrite Hauth;
      unfold Server.forbidden; rewrite Hrole, Hother; simpl; eauto.
    destruct Hupload as [[f|] ->]; simpl; eauto.
  - intros Hself. apply String.eqb_eq in Hself. split.
    + intros r st' t'.
      destruct route; simpl; unfold_handler; rewrite Hauth;
        unfold Server.forbidden; rewrite Hrole, Hself; simpl; intros Hrun;
        repeat (case_match; simplify_eq/=); done.
    + destruct route; simpl; unfold_handler; rewrite Hauth;
        unfold Server.forbidden; rewrite Hrole, Hself; simpl.
      * intros [u ->]. simpl. eauto.
      * intros [v ->]. simpl. eauto.
      * intros (f & v & -> & Hstore). simpl. rewrite Hstore. simpl. eauto.
      * intros ->. simpl. eauto.
Qed.

Lemma self_or_admin_policy_witness :
  (exists b t', run (Server.patch_avatar Sample.open
                       (Sample.as_alice "u2" Js.Null (Some Sample.photo))) ∅
                = (Some (Response 403 b), ∅, t')) /\
  (exists b t', run (Server.patch_avatar Sample.open
                       (Sample.as_alice "u1" Js.Null (Some Sample.photo))) ∅
                = (Some (Response 200 b), ∅, t')).
Proof.
  split.
  - apply (proj1 (self_or_admin_policy PatchAvatar Sample.open
                    (Sample.as_alice "u2" Js.Null (Some Sample.photo))
                    ∅ (Claims "u1" "alice" false) [JwtVerify "token-alice"]
                    eq_refl eq_refl)).
    + discriminate.
    + exists (Some (File "avatar-u2.PNG")). reflexivity.
  - apply (proj2 (self_or_admin_policy PatchAvatar Sample.open
                    (Sample.as_alice "u1" Js.Null (Some Sample.photo))
                    ∅ (Claims "u1" "alice" false) [JwtVerify "token-alice"]
                    eq_refl eq_refl)).
    + reflexivity.
    + exists (File "avatar-u1.PNG"), Js.Null. split; reflexivity.
Defined.

(** C3 as stated fails on the avatar PATCH when the upload is refused:
    alice, who is not an admin, sends a GIF for bob's avatar; the upload
    middleware runs before the ownership check and hands its error to the
    error handler, which answers 500, not 403. *)
Lemma patch_avatar_refused_upload :
  run (Server.patch_avatar Sample.open
         (Sample.as_alice "u2" Js.Null (Some Sample.animation))) ∅
  = (Some (Response 500 (Js.Obj [
             ("message", Js.Str "An unexpected error occurred");
             ("error", Js.Str "Only .jpeg, .jpg, and .png files are allowed")])),
     ∅, [JwtVerify "token-alice"]).
Proof. reflexivity. Qed.

(** An accepted upload aimed at another user's avatar is answered 403 after
    the file has been stored under that user's name. *)
Example patch_avatar_stored_before_check :
  run (Server.patch_avatar Sample.open
         (Sample.as_alice "u2" Js.Null (Some Sample.photo))) ∅
  = (Some (Response 403 (message "You can only update your own avatar")),
     ∅, [JwtVerify "token-alice"; StoreFile "avatar-u2.PNG"]).
Proof. reflexivity. Qed.

(** C7 (as amended). A PIN verification request whose candidate PIN is a
    non-empty string, for a user the store finds with a stored PIN hash, is
    answered 200 with [data.valid] equal to the verdict of the hash
    comparison of the candidate against the stored hash; the map of login
    attempts is left as it was. *)
Theorem verify_pin_verdict env req st c t p u valid :
  Server.authenticateToken env req st = (Val c, st, t) ->
  Js.get "pin" (req_body req) = Js.Str p ->
  p <> "" ->
  db_getUserById env (req_param req) = Ok (Some u) ->
  Js.truthy (user_pin u) = true ->
  bcrypt_compare env (Js.Str p) (user_pin u) = Ok valid ->
  run (Server.post_verify_pin env req) st =
    (Some (Response 200 (Js.Obj [("data", Js.Obj [("valid", Js.Bool valid)])])), st,
     (t ++ [DbGetUserById (req_param req); BcryptCompare (Js.Str p) (user_pin u)])%list).
Proof.
  intros Hauth Hpin Hp Hfound Hhash Hcompare. unfold_handler.
  rewrite Hauth, Hpin. simpl. apply String.eqb_neq in Hp as ->. simpl.
  rewrite Hfound. simpl. rewrite Hhash. simpl. by rewrite Hcompare.
Qed.

Lemma verify_pin_verdict_witness :
  run (Server.post_verify_pin Sample.open
         (Sample.as_alice "u1" (Js.Obj [("pin", Js.Str "1234")]) None)) ∅
    = (Some (Response 200 (Js.Obj [("data", Js.Obj [("valid", Js.Bool true)])])), ∅,
       [JwtVerify "token-alice"; DbGetUserById "u1";
        BcryptCompare (Js.Str "1234") (Js.Str (Sample.hash "1234"))]).
Proof.
  apply (verify_pin_verdict Sample.open
           (Sample.as_alice "u1" (Js.Obj [("pin", Js.Str "1234")]) None) ∅
           (Claims "u1" "alice" false) [JwtVerify "token-alice"] "1234" Sample.alice true).
  - reflexivity.
  - reflexivity.
  - discriminate.
  - reflexivity.
  - reflexivity.
  - reflexivity.
Defined.

(** C7 as stated fails in two places. An empty candidate PIN is a string,
    and the request is answered 400. And on the 200 response to a correct
    PIN, [users.verifyPin] of src/services/api.ts reads [valid] beside the
    [data] envelope instead of inside it and resolves to [undefined], not to
    the verdict; the other copy of the client unwraps the envelope and
    resolves to the verdict. *)
Lemma verify_pin_empty_and_envelope :
  run (Server.post_verify_pin Sample.open
         (Sample.as_alice "u1" (Js.Obj [("pin", Js.Str "")]) None)) ∅
    = (Some (Response 400 (message "PIN is required and must be a string.")), ∅,
       [JwtVerify "token-alice"]) /\
  run (Server.post_verify_pin Sample.open
         (Sample.as_alice "u1" (Js.Obj [("pin", Js.Str "1234")]) None)) ∅
    = (Some (Response 200 (Js.Obj [("data", Js.Obj [("valid", Js.Bool true)])])), ∅,
       [JwtVerify "token-alice"; DbGetUserById "u1";
        BcryptCompare (Js.Str "1234") (Js.Str (Sample.hash "1234"))]) /\
  Client.verifyPin
      (Client.HttpResponse
         (Response 200 (Js.Obj [("data", Js.Obj [("valid", Js.Bool true)])])))
      (Client.Window "/transfer" [])
    = (Client.Resolves Js.Undefined, Client.Window "/transfer" []) /\
  Client.verifyPin_unwrapping
      (Client.HttpResponse
         (Response 200 (Js.Obj [("data", Js.Obj [("valid", Js.Bool true)])])))
      (Client.Window "/transfer" [])
    = (Client.Resolves (Js.Bool true), Client.Window "/transfer" []).
Proof. split_and!; reflexivity. Qed.

(** C8, the code at the failing input and beyond. [validateStatus] accepts
    every status below 500, so a 401 response is fulfilled: it passes
    through the first handler of the response interceptor and the location
    is not assigned. The redirect sits in the second handler, which runs
    only for rejected requests. *)
Theorem unauthorized_not_redirected r w :
  status r = 401 ->
  Client.api_request (Client.HttpResponse r) w = (Client.Fulfilled r, w).
Proof.
  intros Hstatus. unfold Client.api_request, Client.settle, Client.validateStatus.
  by rewrite Hstatus.
Qed.

Lemma unauthorized_not_redirected_witness :
  Client.api_request
    (Client.HttpResponse (Response 401 (message "Access denied. No token provided.")))
    (Client.Window "/dashboard" [])
  = (Client.Fulfilled (Response 401 (message "Access denied. No token provided.")),
     Client.Window "/dashboard" []).
Proof.
  apply (unauthorized_not_redirected
           (Response 401 (message "Access denied. No token provided."))
           (Client.Window "/dashboard" [])).
  reflexivity.
Defined.

(** The second handler does redirect a rejected 401 away from any view but
    the login view: this is what the interceptor is written to do. *)
Lemma onRejected_redirects r msg w :
  status r = 401 ->
  Client.location_pathname w <> "/login" ->
  Client.location_href (Client.onRejected (Client.AxiosError (Some r) msg) w)
  = (Client.location_href w ++ ["/login"])%list.
Proof.
  intros Hstatus Hpath. unfold Client.onRejected. simpl. rewrite Hstatus. simpl.
  by apply String.eqb_neq in Hpath as ->.
Qed.

(** No request through [api] ever assigns the location: a response below
    500 is fulfilled, and a rejected one has no status 401. *)
Lemma api_request_never_redirects t w : (Client.api_request t w).2 = w.
Proof.
  destruct t as [r|msg]; [|done].
  unfold Client.api_request, Client.settle, Client.validateStatus, Client.onRejected.
  destruct (status r <? 500)%nat eqn:Hlt; [done|]. simpl.
  apply Nat.ltb_ge in Hlt.
  destruct (status r =? 401)%nat eqn:Heq; [|done].
  apply Nat.eqb_eq in Heq. lia.
Qed.

(** In exact arithmetic the downscaled image is as high as the page, keeps
    the proportions of the canvas and is centred. *)
Lemma receipt_layout_exact (c : Receipt.canvas) :
  let h := Receipt.imgHeight (T:=Q) c in
  Qle_bool h 295 = false ->
  exists x w' h',
    Receipt.generatePDFReceipt (T:=Q) c = Receipt.Pdf 1 [Receipt.Image x 0%Q w' h'] /\
    (h' == 295)%Q /\ (w' == 210 * (295 / h))%Q /\ (x + w' + x == 210)%Q.
Proof.
  intros h Hexceeds.
  assert (Hpos : ~ (h == 0)%Q).
  { intros Hzero. rewrite <- not_true_iff_false in Hexceeds. apply Hexceeds.
    apply Qle_bool_iff. rewrite Hzero. done. }
  unfold Receipt.generatePDFReceipt.
  change (Receipt.leb (Receipt.imgHeight c) Receipt.pageHeight) with (Qle_bool h 295).
  rewrite Hexceeds. fold h.
  eexists _, _, _. split; [reflexivity|].
  unfold Receipt.imgWidth, Receipt.pageHeight. simpl. split_and!; field; done.
Qed.

(** C9 (as amended). With [imgHeight = canvas.height * 210 / canvas.width]
    computed in doubles, the receipt is one image on the one page of the
    document. When [imgHeight <= 295] it is placed at the origin, 210 wide
    and [imgHeight] high. Otherwise it is placed at height 0 with
    [scale = 295 / imgHeight], width [210 * scale], height
    [imgHeight * scale] and x offset [(210 - 210 * scale) / 2], each
    operation rounded to a double; without rounding that height is 295 and
    the image is centred. *)
Theorem receipt_layout (c : Receipt.canvas) :
  let h := Receipt.imgHeight (T:=float) c in
  let scale := PrimFloat.div 295 h in
  (PrimFloat.leb h 295 = true ->
   Receipt.generatePDFReceipt c = Receipt.Pdf 1 [Receipt.Image 0%float 0%float 210%float h]) /\
  (PrimFloat.leb h 295 = false ->
   Receipt.generatePDFReceipt c =
     Receipt.Pdf 1 [Receipt.Image
                      (PrimFloat.div (PrimFloat.sub 210 (PrimFloat.mul 210 scale)) 2)
                      0%float (PrimFloat.mul 210 scale) (PrimFloat.mul h scale)]) /\
  (Qle_bool (Receipt.imgHeight (T:=Q) c) 295 = false ->
   exists x w' h',
     Receipt.generatePDFReceipt (T:=Q) c = Receipt.Pdf 1 [Receipt.Image x 0%Q w' h'] /\
     (h' == 295)%Q /\ (x + w' + x == 210)%Q).
Proof.
  intros h scale. split_and!.
  - intros Hfits. unfold Receipt.generatePDFReceipt. fold h.
    change (Receipt.leb h Receipt.pageHeight) with (PrimFloat.leb h 295).
    by rewrite Hfits.
  - intros Hexceeds. unfold Receipt.generatePDFReceipt. fold h.
    change (Receipt.leb h Receipt.pageHeight) with (PrimFloat.leb h 295).
    by rewrite Hexceeds.
  - intros Hexceeds.
    destruct (receipt_layout_exact c Hexceeds) as (x & w' & h' & Hpdf & Hh & _ & Hx).
    by exists x, w', h'.
Qed.

Lemma receipt_layout_witness :
  Receipt.generatePDFReceipt (Receipt.Canvas 800 1000)
    = Receipt.Pdf 1 [Receipt.Image 0%float 0%float 210%float 262.5%float] /\
  Receipt.generatePDFReceipt (Receipt.Canvas 800 3000)
    = Receipt.Pdf 1 [Receipt.Image 65.666666666666657%float 0%float
                                   78.666666666666671%float 295%float] /\
  (exists x w' h',
      Receipt.generatePDFReceipt (T:=Q) (Receipt.Canvas 1600 3995)
        = Receipt.Pdf 1 [Receipt.Image x 0%Q w' h'] /\
      (h' == 295)%Q /\ (x + w' + x == 210)%Q).
Proof.
  split_and!.
  - apply (proj1 (receipt_layout (Receipt.Canvas 800 1000))). reflexivity.
  - apply (proj1 (proj2 (receipt_layout (Receipt.Canvas 800 3000)))). reflexivity.
  - apply (proj2 (proj2 (receipt_layout (Receipt.Canvas 1600 3995)))). reflexivity.
Defined.

(** C9 as stated fails on the doubles the program computes with: for a
    canvas of 1600 by 3995 pixels the image is higher than the page at full
    width (524.34375), and the height it is given after scaling is
    294.99999999999994, not the page height. *)
Lemma receipt_scaled_height_rounded :
  Receipt.imgHeight (Receipt.Canvas 1600 3995) = 524.34375%float /\
  PrimFloat.leb 524.34375 295 = false /\
  map Receipt.img_height (Receipt.pdf_images (Receipt.generatePDFReceipt (Receipt.Canvas 1600 3995)))
    = [294.99999999999994%float] /\
  PrimFloat.eqb 294.99999999999994 295 = false.
Proof. split_and!; reflexivity. Qed.

(** * Further properties of the server *)

Set Warnings "-clear-no-such-hyp".

(** What one login request can do to the map: nothing, one more failure for
    its address, or the removal of its counter. *)
Lemma post_login_map env req st :
  let st' := (run (Server.post_login env req) st).1.2 in
  let n := default 0 (st !! req_ip req) in
  st' = st \/ (n < 5 /\ st' = <[req_ip req := S n]> st) \/ st' = delete (req_ip req) st.
Proof.
  unfold_handler.
  destruct (5 <=? default 0 (st !! req_ip req))%nat eqn:Hle; [by left|].
  apply Nat.leb_gt in Hle.
  repeat (case_match; simplify_eq/=); rewrite ?Nat.add_1_r; naive_solver.
Qed.

(** X1. A login request is always answered, with one of six statuses, and
    the status tells what happened to the counter of the address: 401 is the
    only answer that raises it (by one, from below 5), 200 removes it, 400,
    403 and 429 leave the map alone, and 500 leaves it alone or, when the
    store fails after the password has been accepted, has already removed
    the counter. *)
Theorem login_effect env req st :
  exists r,
    (run (Server.post_login env req) st).1.1 = Some r /\
    let st' := (run (Server.post_login env req) st).1.2 in
    let n := default 0 (st !! req_ip req) in
    (status r = 429 /\ 5 <= n /\ st' = st) \/
    (status r = 400 /\ n < 5 /\ st' = st) \/
    (status r = 401 /\ n < 5 /\ st' = <[req_ip req := S n]> st) \/
    (status r = 403 /\ n < 5 /\ st' = st) \/
    (status r = 200 /\ n < 5 /\ st' = delete (req_ip req) st) \/
    (status r = 500 /\ n < 5 /\ (st' = st \/ st' = delete (req_ip req) st)).
Proof.
  unfold_handler.
  destruct (5 <=? default 0 (st !! req_ip req))%nat eqn:Hle.
  { apply Nat.leb_le in Hle. eexists. split; [reflexivity|]. simpl. by left. }
  apply Nat.leb_gt in Hle.
  repeat (case_match; simplify_eq/=); eexists; (split; [reflexivity|]); simpl;
    rewrite ?Nat.add_1_r; naive_solver.
Qed.

(** One login request keeps every stored counter between 1 and 5. *)
Lemma post_login_bounded env req st :
  map_Forall (fun _ n => 1 <= n <= 5) st ->
  map_Forall (fun _ n => 1 <= n <= 5) (run (Server.post_login env req) st).1.2.
Proof.
  intros Hbound.
  destruct (post_login_map env req st) as [-> | [[Hn ->] | ->]]; [done| |].
  - apply map_Forall_insert_2; [lia|done].
  - by apply map_Forall_delete.
Qed.

(** X2. Over any run of login requests the stored counters stay between 1
    and 5: an address is never counted past the limit, and no entry holds
    0. *)
Theorem login_attempts_bounded reqs : forall st log st',
  serve_logins reqs st = (log, st') ->
  map_Forall (fun _ n => 1 <= n <= 5) st ->
  map_Forall (fun _ n => 1 <= n <= 5) st'.
Proof.
  induction reqs as [|[env req] rest IH]; intros st log st' Hserve Hbound;
    simpl in Hserve.
  - by simplify_eq.
  - pose proof (post_login_bounded env req st Hbound) as Hstep.
    destruct (run (Server.post_login env req) st) as [[r st1] t].
    destruct (serve_logins rest st1) as [log1 st2] eqn:Hrest.
    simplify_eq. by eapply IH.
Qed.

Lemma login_attempts_bounded_witness :
  map_Forall (fun _ n => 1 <= n <= 5) (serve_logins Sample.five_failures ∅).2.
Proof.
  apply (login_attempts_bounded Sample.five_failures ∅
           (serve_logins Sample.five_failures ∅).1).
  - by destruct (serve_logins Sample.five_failures ∅).
  - apply map_Forall_empty.
Defined.

(** X3. A login that passes validation, from an address under the limit,
    for an active user whose password compares equal, with the store
    recording the login: the answer is 200 with a summary of the user that
    has no password and no pin field, the counter of the address is
    removed, and the token signed for (id, username, is_admin) is set as
    the cookie [token]. *)
Theorem login_success env req st data u :
  let username := toString env (Js.get "username" data) in
  let password := Js.get "password" data in
  let payload := Claims (user_id u) (user_username u) (user_is_admin u) in
  default 0 (st !! req_ip req) < 5 ->
  run_chains env Server.login_chains (req_body req) = (data, []) ->
  db_getUserByUsername env username = Ok (Some u) ->
  user_status u = "Active" ->
  bcrypt_compare env password (Js.Str (user_password u)) = Ok true ->
  db_updateUserLastLogin env (user_id u) = Ok tt ->
  exists r,
    run (Server.post_login env req) st =
      (Some r, delete (req_ip req) st,
       [DbGetUserByUsername username;
        BcryptCompare password (Js.Str (user_password u));
        DbUpdateUserLastLogin (user_id u);
        JwtSign payload;
        ResCookie "token" (jwt_sign env payload)]) /\
    status r = 200 /\
    Js.get "id" (Js.get "user" (body r)) = Js.Str (user_id u) /\
    Js.get "isAdmin" (Js.get "user" (body r)) = Js.Bool (user_is_admin u) /\
    Js.get "password" (Js.get "user" (body r)) = Js.Undefined /\
    Js.get "pin" (Js.get "user" (body r)) = Js.Undefined.
Proof.
  intros username password payload Hunder Hvalid Hfound Hactive Hpassword Hrecorded.
  unfold_handler.
  destruct (5 <=? default 0 (st !! req_ip req))%nat eqn:Hle.
  { apply Nat.leb_le in Hle. lia. }
  rewrite Hvalid. simpl. fold username password. rewrite Hfound. simpl.
  rewrite Hactive. simpl. rewrite Hpassword. simpl. rewrite Hrecorded. simpl.
  eexists. split; [reflexivity|]. done.
Qed.

Lemma login_success_witness :
  exists r,
    run (Server.post_login Sample.open (Sample.login " alice " "secret1"))
        {[ "10.0.0.1" := 4 ]}
    = (Some r, delete "10.0.0.1" {[ "10.0.0.1" := 4 ]},
       [DbGetUserByUsername "alice";
        BcryptCompare (Js.Str "secret1") (Js.Str (Sample.hash "secret1"));
        DbUpdateUserLastLogin "u1";
        JwtSign (Claims "u1" "alice" false);
        ResCookie "token" "token-alice"]) /\
    status r = 200.
Proof.
  destruct (login_success Sample.open (Sample.login " alice " "secret1")
              {[ "10.0.0.1" := 4 ]} (Sample.credentials "alice" "secret1") Sample.alice)
    as (r & Hrun & Hstatus & _).
  - vm_compute. lia.
  - reflexivity.
  - reflexivity.
  - reflexivity.
  - reflexivity.
  - reflexivity.
  - exists r. split; [exact Hrun|exact Hstatus].
Defined.

(** The token a login signs: the response is the 200 answer for the user
    it was signed for, and it is set as the cookie [token]. *)
Lemma login_signed env req st r st' t payload :
  run (Server.post_login env req) st = (Some r, st', t) ->
  JwtSign payload ∈ t ->
  status r = 200 /\
  Js.get "id" (Js.get "user" (body r)) = Js.Str (claim_id payload) /\
  ResCookie "token" (jwt_sign env payload) ∈ t.
Proof.
  unfold_handler. intros Hrun Hsigned.
  destruct (run_chains env Server.login_chains (req_body req)) as [data errors].
  destruct (5 <=? default 0 (st !! req_ip req))%nat;
    repeat (case_match; simplify_eq/=); set_solver.
Qed.

(** X4. Login, then [GET /api/me] with the issued cookie: when the verifier
    reads from the token the payload that was signed, the request for the
    current user looks up exactly the id the login response carries, and
    answers 200 with that id when the store still has the user. *)
Theorem login_then_me env req st r st' t payload env' me st1 :
  run (Server.post_login env req) st = (Some r, st', t) ->
  JwtSign payload ∈ t ->
  jwt_sign env payload <> "" ->
  jwt_verify env' (jwt_sign env payload) = Verified payload ->
  req_cookie_token me = Some (jwt_sign env payload) ->
  exists id,
    ResCookie "token" (jwt_sign env payload) ∈ t /\
    Js.get "id" (Js.get "user" (body r)) = Js.Str id /\
    (run (Session.get_me env' me) st1).2
      = [JwtVerify (jwt_sign env payload); DbGetUserById id] /\
    forall u', db_getUserById env' id = Ok (Some u') -> user_id u' = id ->
      exists r',
        (run (Session.get_me env' me) st1).1 = (Some r', st1) /\ status r' = 200 /\
        Js.get "id" (Js.get "user" (body r')) = Js.Str id.
Proof.
  intros Hlogin Hsigned Htok Hjwt Hme.
  destruct (login_signed _ _ _ _ _ _ _ Hlogin Hsigned) as (_ & Hid & Hcookie).
  exists (claim_id payload). split_and!; [done|done|..].
  all: assert (Hcred : credential me (jwt_sign env payload))
    by (split; [done|]; by left).
  all: unfold Session.get_me; unfold_handler.
  all: rewrite (authenticateToken_credential env' me st1 _ Hcred), Hjwt; simpl.
  - by repeat (case_match; simplify_eq/=).
  - intros u' Hstore Hsame. rewrite Hstore. simpl. eexists. split; [reflexivity|].
    simpl. by rewrite Hsame.
Qed.

Lemma login_then_me_witness :
  exists r',
    (run (Session.get_me Sample.open (Sample.as_alice "" Js.Null None)) ∅).1 = (Some r', ∅) /\
    status r' = 200 /\
    Js.get "id" (Js.get "user" (body r')) = Js.Str "u1".
Proof.
  destruct (login_then_me Sample.open (Sample.login "alice" "secret1") ∅
              (Response 200 (Js.Obj [("user", Js.Obj [
                 ("id", Js.Str "u1"); ("username", Js.Str "alice");
                 ("fullName", Js.Str "Alice Adams"); ("email", Js.Str "alice@example.com");
                 ("isAdmin", Js.Bool false); ("avatar", Js.Null)])]))
              ∅
              [DbGetUserByUsername "alice";
               BcryptCompare (Js.Str "secret1") (Js.Str (Sample.hash "secret1"));
               DbUpdateUserLastLogin "u1";
               JwtSign (Claims "u1" "alice" false);
               ResCookie "token" "token-alice"]
              (Claims "u1" "alice" false)
              Sample.open (Sample.as_alice "" Js.Null None) ∅)
    as (id & _ & Hid & _ & Hme).
  - reflexivity.
  - set_solver.
  - discriminate.
  - reflexivity.
  - reflexivity.
  - simpl in Hid. injection Hid as <-.
    apply (Hme Sample.alice); reflexivity.
Defined.

Ltac each_route H :=
  unfold Session.protected in H; set_unfold in H; destruct_or?; subst.

(** X5. On every route behind [authenticateToken], a request the middleware
    turns down is answered by the middleware alone: the response is its 401
    or 403, the handler does not run, the store is not called and nothing
    is written to disk. *)
Theorem protected_routes_need_token h env req st r t :
  h ∈ Server.post_users :: Session.protected ->
  Server.authenticateToken env req st = (Sent r, st, t) ->
  run (h env req) st = (Some r, st, t) /\
  (status r = 401 \/ status r = 403) /\
  (t = [] \/ exists token, t = [JwtVerify token]).
Proof.
  intros Hroute Hauth. split_and!.
  - each_route Hroute; unfold Session.get_me, Session.get_session, Session.get_settings;
      unfold_handler; try destruct (run_chains _ _ _); by rewrite Hauth.
  - revert Hauth. unfold Server.authenticateToken. unfold_handler. intros Hauth.
    repeat (case_match; simplify_eq/=); auto.
  - by destruct (authenticateToken_frame _ _ _ _ _ _ Hauth).
Qed.

Lemma protected_routes_need_token_witness :
  run (Session.get_settings Sample.open
         (Request "10.0.0.1" (Some "Bearer token-old") None "" Js.Null None)) ∅
  = (Some token_expired, ∅, [JwtVerify "token-old"]).
Proof.
  apply (protected_routes_need_token Session.get_settings Sample.open
           (Request "10.0.0.1" (Some "Bearer token-old") None "" Js.Null None) ∅).
  - unfold Session.protected. set_solver.
  - reflexivity.
Defined.

(** X6. Only the login route touches the map of login attempts: signup, the
    admin creation of a user, PIN verification and every other route behind
    the middleware leave it as it was, whatever they answer. In particular
    no number of wrong PINs is ever counted. *)
Theorem only_login_counts h env req st :
  h ∈ Server.post_signup :: Server.post_users :: Session.protected ->
  (run (h env req) st).1.2 = st.
Proof.
  intros Hroute.
  each_route Hroute; unfold Session.get_me, Session.get_session, Session.get_settings;
    unfold_handler; try destruct (run_chains _ _ _) as [data errors];
    try (destruct (Server.authenticateToken env req st) as [[o st1] t1] eqn:Hauth;
         destruct (authenticateToken_frame _ _ _ _ _ _ Hauth) as [-> _]);
    repeat (case_match; simplify_eq/=); done.
Qed.

Lemma only_login_counts_witness :
  (run (Server.post_verify_pin Sample.open
          (Sample.as_alice "u1" (Js.Obj [("pin", Js.Str "0000")]) None))
       {[ "10.0.0.1" := 3 ]}).1.2 = {[ "10.0.0.1" := 3 ]}.
Proof.
  apply (only_login_counts Server.post_verify_pin).
  unfold Session.protected. set_solver.
Defined.

(** X7. On the avatar PATCH the upload is stored before the ownership check:
    when a caller who may not touch the target's avatar sends a file that
    multer accepts, the request is answered 403 and the store is not
    called, but the file is already on disk, under the name made from the
    target's id. *)
Theorem avatar_stored_before_check env req st c t f :
  Server.authenticateToken env req st = (Val c, st, t) ->
  Server.forbidden c req = true ->
  Server.multer_single env req = Ok (Some f) ->
  req_param req <> "" ->
  run (Server.patch_avatar env req) st =
    (Some (Response 403 (message "You can only update your own avatar")), st,
     (t ++ [StoreFile (file_filename f)])%list) /\
  exists up, req_upload req = Some up /\
    file_filename f = "avatar-" +:+ req_param req +:+ path_extname env (upload_originalname up).
Proof.
  intros Hauth Hforbidden Hupload Hparam. split.
  - unfold_handler. rewrite Hauth, Hupload. simpl. rewrite Hforbidden. simpl.
    by rewrite ?app_nil_r.
  - revert Hupload. unfold Server.multer_single, Server.storage_filename.
    destruct (req_upload req) as [up|]; [|done]. intros Hupload.
    exists up. split; [done|].
    repeat (case_match; simplify_eq/=); try done.
    apply String.eqb_neq in Hparam. by rewrite Hparam in *.
Qed.

Lemma avatar_stored_before_check_witness :
  run (Server.patch_avatar Sample.open
         (Sample.as_alice "u2" Js.Null (Some Sample.photo))) ∅
  = (Some (Response 403 (message "You can only update your own avatar")), ∅,
     [JwtVerify "token-alice"; StoreFile "avatar-u2.PNG"]).
Proof.
  apply (avatar_stored_before_check Sample.open
           (Sample.as_alice "u2" Js.Null (Some Sample.photo)) ∅
           (Claims "u1" "alice" false) [JwtVerify "token-alice"] (File "avatar-u2.PNG")).
  - reflexivity.
  - reflexivity.
  - reflexivity.
  - discriminate.
Defined.

(** X8. Registration is closed only by a settings row whose [allowNewUsers]
    is the boolean false. With no settings row, with no such flag, or with
    any other value of the flag (0, the string "false", null), a signup that
    passes validation reaches the store, and a created user is answered 201
    inside a [data] envelope. *)
Theorem signup_open_unless_false env req st data settings u :
  run_chains env Server.create_chains (req_body req) = (data, []) ->
  db_getSettings env = Ok settings ->
  Js.truthy settings = false \/ Js.get "allowNewUsers" settings <> Js.Bool false ->
  db_createUser env data = Ok u ->
  run (Server.post_signup env req) st =
    (Some (Response 201 (Js.Obj [("data", Server.created_user u)])), st,
     [DbGetSettings; DbCreateUser data]).
Proof.
  intros Hvalid Hsettings Hopen Hcreated. unfold_handler.
  rewrite Hvalid, Hsettings. simpl.
  assert (Hflag : Js.truthy settings && Js.eq_false (Js.get "allowNewUsers" settings) = false).
  { destruct Hopen as [-> | Hflag]; [done|].
    apply andb_false_iff. right. unfold Js.eq_false.
    destruct (Js.get "allowNewUsers" settings) as [| |[]| | | |]; congruence. }
  rewrite Hflag, Hcreated. done.
Qed.

Lemma signup_open_unless_false_witness :
  exists u,
    run (Server.post_signup (Sample.env (Js.Obj [("allowNewUsers", Js.Num 0)]))
           (Request "10.0.0.1" None None ""
              (Sample.signup_form "carol" "carol@example.com" "secret9") None)) ∅
    = (Some (Response 201 (Js.Obj [("data", Server.created_user u)])), ∅,
       [DbGetSettings;
        DbCreateUser (Sample.signup_form "carol" "carol@example.com" "secret9")]).
Proof.
  eexists.
  apply (signup_open_unless_false (Sample.env (Js.Obj [("allowNewUsers", Js.Num 0)]))
           (Request "10.0.0.1" None None ""
              (Sample.signup_form "carol" "carol@example.com" "secret9") None) ∅
           (Sample.signup_form "carol" "carol@example.com" "secret9")
           (Js.Obj [("allowNewUsers", Js.Num 0)])).
  - reflexivity.
  - reflexivity.
  - right. discriminate.
  - reflexivity.
Defined.

(** A word followed by a space: the second piece of [word ++ " " ++ rest]
    is the first piece of [rest]. A word is a string that [split_space]
    leaves in one piece. *)
Lemma split_space_word word rest :
  Js.split_space word = [word] ->
  Js.split_space (word +:+ " " +:+ rest) = word :: Js.split_space rest.
Proof.
  induction word as [|c s IH]; [done|]. intros Hword. simpl in *.
  destruct (Ascii.eqb c " "); [done|].
  destruct (Js.split_space s) as [|piece pieces] eqn:Hs.
  - exfalso. by destruct s; simpl in Hs; repeat case_match.
  - simplify_eq. by rewrite IH.
Qed.

(** X9. The middleware does not look at the scheme of the Authorization
    header: with no cookie, a header made of any word, one space and a
    token is verified as that token, be the word Bearer, Basic or anything
    else (a word being a string without a space, which [split_space] leaves
    in one piece). *)
Theorem authorization_scheme_ignored env req st scheme token :
  req_cookie_token req = None ->
  req_authorization req = Some (scheme +:+ " " +:+ token) ->
  Js.split_space scheme = [scheme] ->
  Js.split_space token = [token] ->
  token <> "" ->
  Server.authenticateToken env req st =
    (match jwt_verify env token with
     | Verified user => Val user
     | VerifyError e =>
         Sent (if String.eqb (err_name e) "TokenExpiredError"
               then token_expired else invalid_token)
     end, st, [JwtVerify token]).
Proof.
  intros Hcookie Hheader Hscheme Htoken Hne.
  apply authenticateToken_credential. split; [done|]. right. split; [by left|].
  eexists. split; [exact Hheader|].
  by rewrite (split_space_word _ _ Hscheme), Htoken.
Qed.

Lemma authorization_scheme_ignored_witness :
  Server.authenticateToken Sample.open
    (Request "10.0.0.1" (Some "Basic token-admin") None "" Js.Null None) ∅
  = (Val (Claims "u0" "admin" true), ∅, [JwtVerify "token-admin"]).
Proof.
  apply (authorization_scheme_ignored Sample.open
           (Request "10.0.0.1" (Some "Basic token-admin") None "" Js.Null None) ∅
           "Basic" "token-admin").
  - reflexivity.
  - reflexivity.
  - reflexivity.
  - reflexivity.
  - discriminate.
Defined.





(** * The client against the server *)

(** X11. What [auth.login] makes of the answers of the login route: a 200
    resolves to the [user] object of the body; a 500 is rejected with the
    server's message; every other answer (400, 401, 403, 429) is rejected
    with the one text "Login failed. Please try again.", so the server's
    reason, wrong password, inactive account or too many attempts, does not
    reach the caller. The location is never assigned. *)
Theorem client_login_outcome env req st r st' t w :
  run (Server.post_login env req) st = (Some r, st', t) ->
  Api.login (Client.HttpResponse r) w =
    (if (status r =? 200)%nat then Client.Resolves (Js.get "user" (body r))
     else if (status r =? 500)%nat then Client.Rejects "Server error during login"
     else Client.Rejects "Login failed. Please try again.", w).
Proof.
  unfold_handler. intros Hrun.
  destruct (run_chains env Server.login_chains (req_body req)) as [data errors].
  destruct (5 <=? default 0 (st !! req_ip req))%nat;
    repeat (case_match; simplify_eq/=); done.
Qed.

Lemma client_login_outcome_witness :
  Api.login (Client.HttpResponse
               (Response 401 (message "Incorrect password. Please try again.")))
            (Client.Window "/login" [])
  = (Client.Rejects "Login failed. Please try again.", Client.Window "/login" []).
Proof.
  apply (client_login_outcome Sample.open (Sample.login "alice" "guess") ∅
           (Response 401 (message "Incorrect password. Please try again."))
           {[ "10.0.0.1" := 1 ]}
           [DbGetUserByUsername "alice";
            BcryptCompare (Js.Str "guess") (Js.Str (Sample.hash "secret1"))]).
  reflexivity.
Defined.

(** X12. [users.create] reads [response.data.user]. The admin route answers
    a creation with a [user] envelope, which resolves to the created user;
    the signup route answers with a [data] envelope, so no answer of the
    signup route makes [users.create] resolve: a signup the server carried
    out (201) is reported to the caller as "Failed to create user". *)
Theorem client_create_outcome env req st r st' t w :
  (run (Server.post_signup env req) st = (Some r, st', t) ->
   exists msg,
     Api.create (Client.HttpResponse r) w = (Client.Rejects msg, w) /\
     (status r = 201 -> msg = "Failed to create user")) /\
  (run (Server.post_users env req) st = (Some r, st', t) ->
   status r = 201 ->
   exists u,
     body r = Js.Obj [("user", Server.created_user u)] /\
     Api.create (Client.HttpResponse r) w = (Client.Resolves (Server.created_user u), w)).
Proof.
  split.
  - unfold_handler. intros Hrun.
    destruct (run_chains env Server.create_chains (req_body req)) as [data errors].
    repeat (case_match; simplify_eq/=); eexists; (split; [reflexivity|]); done.
  - unfold_handler.
    destruct (run_chains env Server.create_chains (req_body req)) as [data errors].
    destruct (Server.authenticateToken env req st) as [[o st1] t1] eqn:Hauth.
    revert Hauth. unfold Server.authenticateToken. unfold_handler. intros Hauth Hrun Hstatus.
    repeat (case_match; simplify_eq/=); eexists; (split; [reflexivity|]); done.
Qed.

Lemma client_create_outcome_witness :
  exists r msg,
    run (Server.post_signup Sample.open
           (Request "10.0.0.1" None None ""
              (Sample.signup_form "carol" "carol@example.com" "secret9") None)) ∅
      = (Some r, ∅,
         [DbGetSettings;
          DbCreateUser (Sample.signup_form "carol" "carol@example.com" "secret9")]) /\
    status r = 201 /\
    Api.create (Client.HttpResponse r) (Client.Window "/signup" [])
      = (Client.Rejects msg, Client.Window "/signup" []) /\
    msg = "Failed to create user".
Proof.
  eexists. 
  destruct (proj1 (client_create_outcome Sample.open
              (Request "10.0.0.1" None None ""
                 (Sample.signup_form "carol" "carol@example.com" "secret9") None) ∅
              _ ∅
              [DbGetSettings;
               DbCreateUser (Sample.signup_form "carol" "carol@example.com" "secret9")]
              (Client.Window "/signup" [])) eq_refl) as (msg & Hcreate & Hmsg).
  exists msg. split_and!; [reflexivity|reflexivity|exact Hcreate|by apply Hmsg].
Defined.

(** X13. [auth.isLoggedIn] reads [response.data.isLoggedIn], and the
    session route answers [{data: {isLoggedIn: true}}]: whatever the
    session route answers, also for a caller whose token verifies, the
    method resolves to false. *)
Theorem client_isLoggedIn_false env req st r st' t w :
  run (Session.get_session env req) st = (Some r, st', t) ->
  Api.isLoggedIn (Client.HttpResponse r) w = (Client.Resolves (Js.Bool false), w).
Proof.
  unfold Session.get_session. unfold_handler.
  destruct (Server.authenticateToken env req st) as [[o st1] t1] eqn:Hauth.
  revert Hauth. unfold Server.authenticateToken. unfold_handler. intros Hauth Hrun.
  repeat (case_match; simplify_eq/=); done.
Qed.

Lemma client_isLoggedIn_false_witness :
  run (Session.get_session Sample.open (Sample.as_alice "" Js.Null None)) ∅
    = (Some (Response 200 (Js.Obj [("data", Js.Obj [("isLoggedIn", Js.Bool true)])])), ∅,
       [JwtVerify "token-alice"]) /\
  Api.isLoggedIn
      (Client.HttpResponse
         (Response 200 (Js.Obj [("data", Js.Obj [("isLoggedIn", Js.Bool true)])])))
      (Client.Window "/" [])
    = (Client.Resolves (Js.Bool false), Client.Window "/" []).
Proof.
  split; [reflexivity|].
  apply (client_isLoggedIn_false Sample.open (Sample.as_alice "" Js.Null None) ∅
           _ ∅ [JwtVerify "token-alice"]).
  reflexivity.
Defined.

(** X14. [users.updateBalance] and [users.updateAvatar] read
    [response.data.user], and the balance and avatar routes never answer
    with a [user] field: no answer of these routes makes the methods
    resolve, and an update the server carried out (200) is rejected with
    "User data missing in response", respectively "Failed to update
    avatar". *)
Theorem client_updates_never_resolve env req st r st' t w :
  (run (Server.patch_balance env req) st = (Some r, st', t) ->
   exists msg,
     Api.updateBalance (Client.HttpResponse r) w = (Client.Rejects msg, w) /\
     (status r = 200 -> msg = "User data missing in response")) /\
  (run (Server.patch_avatar env req) st = (Some r, st', t) ->
   exists msg,
     Api.updateAvatar (Client.HttpResponse r) w = (Client.Rejects msg, w) /\
     (status r = 200 -> msg = "Failed to update avatar")).
Proof.
  split; unfold_handler;
    destruct (Server.authenticateToken env req st) as [[o st1] t1] eqn:Hauth;
    revert Hauth; unfold Server.authenticateToken; unfold_handler; intros Hauth.
  - destruct (run_chains env Server.balance_chains (req_body req)) as [data errors].
    intros Hrun.
    repeat (case_match; simplify_eq/=); eexists; (split; [reflexivity|]); done.
  - intros Hrun.
    repeat (case_match; simplify_eq/=); eexists; (split; [reflexivity|]); done.
Qed.

Lemma client_updates_never_resolve_witness :
  exists msg,
    Api.updateBalance
        (Client.HttpResponse (Response 200 (Js.Obj [("data", Js.Null)])))
        (Client.Window "/admin" [])
      = (Client.Rejects msg, Client.Window "/admin" []) /\
    msg = "User data missing in response".
Proof.
  destruct (proj1 (client_updates_never_resolve Sample.open
              (Sample.as_admin "u1" (Js.Obj [("balance", Js.Num 250)])) ∅
              (Response 200 (Js.Obj [("data", Js.Null)])) ∅
              [JwtVerify "token-admin"; DbUpdateUserBalance "u1" (Js.Num 250)]
              (Client.Window "/admin" [])) eq_refl) as (msg & Hupdate & Hmsg).
  exists msg. split; [exact Hupdate|by apply Hmsg].
Defined.

(** X15. [auth.getCurrentUser] against [/api/me], and [users.getById]
    against [/api/users/:id]: a 200 resolves to the [user] object of the
    body, which carries the id of a row of the store; every other answer
    below 500 is rejected with "User data missing in response",
    whatever message the server sent. *)
Theorem client_reads_user h env req st r st' t w :
  h = Session.get_me \/ h = Server.get_user ->
  run (h env req) st = (Some r, st', t) ->
  (status r = 200 ->
   exists id,
     Js.get "id" (Js.get "user" (body r)) = Js.Str id /\
     Api.expect_user (Client.HttpResponse r) w
       = (Client.Resolves (Js.get "user" (body r)), w)) /\
  (status r <> 200 -> status r < 500 ->
   Api.expect_user (Client.HttpResponse r) w
     = (Client.Rejects "User data missing in response", w)).
Proof.
  intros [-> | ->]; unfold Session.get_me; unfold_handler;
    destruct (Server.authenticateToken env req st) as [[o st1] t1] eqn:Hauth;
    revert Hauth; unfold Server.authenticateToken; unfold_handler; intros Hauth Hrun;
    repeat (case_match; simplify_eq/=); split; intros; try done; try lia;
    by eexists.
Qed.

Lemma client_reads_user_witness :
  Api.getById
      (Client.HttpResponse (Response 403 (message "You can only access your own user details")))
      (Client.Window "/profile" [])
    = (Client.Rejects "User data missing in response", Client.Window "/profile" []).
Proof.
  apply (client_reads_user Server.get_user Sample.open (Sample.as_alice "u2" Js.Null None) ∅
           (Response 403 (message "You can only access your own user details")) ∅
           [JwtVerify "token-alice"]).
  - by right.
  - reflexivity.
  - discriminate.
  - simpl. lia.
Defined.

(** * The remaining routes *)

Ltac unfold_route :=
  unfold Admin.serve, Admin.get_users, Admin.delete_user, Admin.patch_status,
    Admin.post_logout, Admin.post_transactions, Admin.get_transactions,
    Admin.delete_transaction, Admin.patch_settings, Admin.attempt, Admin.answer,
    Admin.invoke, Admin.lift, mbind, Admin.Route_bind, mret, Admin.Route_ret, call in *.

(** X16. The admin-only routes (the list and deletion of users, a user's
    status and balance, the creation of a user, the deletion of a
    transaction, reading and writing the settings) answer an authenticated
    caller who is not an admin with 403 "Admin access required" before
    anything else: the validation result is not read and the store is not
    called, so the answer is the same for a valid and for an invalid
    body. *)
Theorem admin_only_routes env store req st c t :
  Server.authenticateToken env req st = (Val c, st, t) ->
  claim_isAdmin c = false ->
  (forall h, h ∈ Admin.admin_only ->
     Admin.serve (h env store req) st = (Some admin_required, st, map inl t)) /\
  (forall h, h ∈ [Session.get_settings; Server.post_users; Server.patch_balance] ->
     run (h env req) st = (Some admin_required, st, t)).
Proof.
  intros Hauth Hrole. split; intros h Hroute.
  - unfold Admin.admin_only in Hroute. set_unfold in Hroute. destruct_or?; subst;
      unfold_route; rewrite Hauth, Hrole; simpl; by rewrite app_nil_r.
  - set_unfold in Hroute. destruct_or?; subst; unfold Session.get_settings;
      unfold_handler; try destruct (run_chains _ _ _); rewrite Hauth, Hrole; simpl;
      by rewrite app_nil_r.
Qed.

Lemma admin_only_routes_witness :
  Admin.serve (Admin.delete_user Sample.open Admin.sample (Sample.as_alice "u2" Js.Null None)) ∅
    = (Some admin_required, ∅, [inl (JwtVerify "token-alice")]) /\
  run (Session.get_settings Sample.open (Sample.as_alice "" Js.Null None)) ∅
    = (Some admin_required, ∅, [JwtVerify "token-alice"]).
Proof.
  destruct (admin_only_routes Sample.open Admin.sample (Sample.as_alice "u2" Js.Null None) ∅
              (Claims "u1" "alice" false) [JwtVerify "token-alice"] eq_refl eq_refl)
    as [Hroute _].
  destruct (admin_only_routes Sample.open Admin.sample (Sample.as_alice "" Js.Null None) ∅
              (Claims "u1" "alice" false) [JwtVerify "token-alice"] eq_refl eq_refl)
    as [_ Hhandler].
  split.
  - apply (Hroute Admin.delete_user). unfold Admin.admin_only. set_solver.
  - apply (Hhandler Session.get_settings). set_solver.
Defined.

(** X17. Creating a transaction checks the body before the owner. A body
    that fails validation is answered 400 for every caller. With a valid
    body, a caller who is not an admin is answered 403, and the store is not
    called, unless [user_id] is the string of the caller's own id; an admin,
    or a caller naming itself, has the body handed to the store as it is
    and, when the store accepts it, is answered 201 with the stored
    transaction. *)
Theorem transaction_creation_policy env store req st c t :
  Server.authenticateToken env req st = (Val c, st, t) ->
  let errors := Admin.failures (Admin.transaction_rules env store) (req_body req) in
  let own := Js.eq_str (Js.get "user_id" (req_body req)) (claim_id c) in
  (errors <> [] ->
   Admin.serve (Admin.post_transactions env store req) st =
     (Some (Response 400 (validation_failed errors)), st, map inl t)) /\
  (errors = [] -> claim_isAdmin c = false -> own = false ->
   Admin.serve (Admin.post_transactions env store req) st =
     (Some (Response 403 (message "You can only create transactions for your own account")),
      st, map inl t)) /\
  (forall transaction,
     errors = [] -> claim_isAdmin c = true \/ own = true ->
     Admin.db_createTransaction store (req_body req) = Ok transaction ->
     Admin.serve (Admin.post_transactions env store req) st =
       (Some (Response 201 (Js.Obj [("data", transaction)])), st,
        (map inl t ++ [inr (Admin.CreateTransaction (req_body req))])%list)).
Proof.
  intros Hauth errors own. unfold_route. rewrite Hauth.
  fold errors own. clearbody errors own. simpl. split_and!.
  - intros Hinvalid. rewrite bool_decide_eq_false_2 by done. simpl.
    by rewrite app_nil_r.
  - intros -> Hrole Hother. rewrite Hrole, Hother. simpl. by rewrite app_nil_r.
  - intros transaction -> Hallowed Hstored. simpl.
    assert (Hcheck : negb (claim_isAdmin c) && negb own = false).
    { destruct Hallowed as [Hadmin | Hown]; [by rewrite Hadmin|].
      by rewrite Hown, andb_false_r. }
    by rewrite Hcheck, Hstored.
Qed.

Lemma transaction_creation_policy_witness :
  Admin.serve (Admin.post_transactions Sample.open Admin.sample
                 (Sample.as_alice "" (Admin.deposit (Js.Str "u2")) None)) ∅
    = (Some (Response 403 (message "You can only create transactions for your own account")),
       ∅, [inl (JwtVerify "token-alice")]) /\
  Admin.serve (Admin.post_transactions Sample.open Admin.sample
                 (Sample.as_alice "" (Admin.deposit (Js.Str "u1")) None)) ∅
    = (Some (Response 201 (Js.Obj [("data", Admin.deposit (Js.Str "u1"))])), ∅,
       [inl (JwtVerify "token-alice");
        inr (Admin.CreateTransaction (Admin.deposit (Js.Str "u1")))]) /\
  Admin.serve (Admin.post_transactions Sample.open Admin.sample
                 (Sample.as_alice "" (Js.Obj [("user_id", Js.Str "u2")]) None)) ∅
    = (Some (Response 400 (validation_failed
               ["Valid transaction type is required"; "Amount must be a positive number";
                "Valid date and time is required"])),
       ∅, [inl (JwtVerify "token-alice")]).
Proof.
  split_and!.
  - apply (proj1 (proj2 (transaction_creation_policy Sample.open Admin.sample
             (Sample.as_alice "" (Admin.deposit (Js.Str "u2")) None) ∅
             (Claims "u1" "alice" false) [JwtVerify "token-alice"] eq_refl)));
      reflexivity.
  - apply (proj2 (proj2 (transaction_creation_policy Sample.open Admin.sample
             (Sample.as_alice "" (Admin.deposit (Js.Str "u1")) None) ∅
             (Claims "u1" "alice" false) [JwtVerify "token-alice"] eq_refl))).
    + reflexivity.
    + by right.
    + reflexivity.
  - apply (proj1 (transaction_creation_policy Sample.open Admin.sample
             (Sample.as_alice "" (Js.Obj [("user_id", Js.Str "u2")]) None) ∅
             (Claims "u1" "alice" false) [JwtVerify "token-alice"] eq_refl)).
    discriminate.
Defined.

(** X18. Listing transactions reads one thing from the store, chosen by the
    role in the token: all transactions for an admin, and for anyone else
    the transactions of the caller's own id. The request has no part in the
    choice, so a caller who is not an admin cannot list another user's
    transactions through this route. *)
Theorem transactions_listing_scope env store req st c t :
  Server.authenticateToken env req st = (Val c, st, t) ->
  exists r,
    Admin.serve (Admin.get_transactions env store req) st =
      (Some r, st,
       (map inl t ++ [if claim_isAdmin c then inr Admin.GetTransactions
                      else inl (DbGetUserTransactions (claim_id c))])%list) /\
    (status r = 200 \/ status r = 500).
Proof.
  intros Hauth. unfold_route. rewrite Hauth. simpl.
  destruct (claim_isAdmin c); simpl.
  - destruct (Admin.db_getTransactions store); simpl; eexists; split; eauto;
      by rewrite ?app_nil_r.
  - destruct (db_getUserTransactions env (claim_id c)); simpl; eexists; split; eauto;
      by rewrite ?app_nil_r.
Qed.

Lemma transactions_listing_scope_witness :
  exists r,
    Admin.serve (Admin.get_transactions Sample.open Admin.sample
                   (Sample.as_alice "u2" Js.Null None)) ∅
    = (Some r, ∅, [inl (JwtVerify "token-alice"); inl (DbGetUserTransactions "u1")]) /\
    (status r = 200 \/ status r = 500).
Proof.
  apply (transactions_listing_scope Sample.open Admin.sample
           (Sample.as_alice "u2" Js.Null None) ∅
           (Claims "u1" "alice" false) [JwtVerify "token-alice"]).
  reflexivity.
Defined.

(** X19. Logout is behind the middleware and does nothing but clear the
    cookie: a caller whose token verifies is answered 200 after the one
    [clearCookie], with no call to the store, so the token itself stays
    valid; a caller the middleware turns down, for instance with an expired
    token, gets the middleware's answer and the cookie is not cleared. *)
Theorem logout_clears_cookie_only env req st :
  (forall c t,
      Server.authenticateToken env req st = (Val c, st, t) ->
      Admin.serve (Admin.post_logout env req) st =
        (Some (Response 200 (message "Logged out successfully")), st,
         (map inl t ++ [inr (Admin.ClearCookie "token")])%list)) /\
  (forall r t,
      Server.authenticateToken env req st = (Sent r, st, t) ->
      Admin.serve (Admin.post_logout env req) st = (Some r, st, map inl t)).
Proof.
  split.
  - intros c t Hauth. unfold_route. by rewrite Hauth.
  - intros r t Hauth. unfold_route. by rewrite Hauth.
Qed.

Lemma logout_clears_cookie_only_witness :
  Admin.serve (Admin.post_logout Sample.open (Sample.as_alice "" Js.Null None)) ∅
    = (Some (Response 200 (message "Logged out successfully")), ∅,
       [inl (JwtVerify "token-alice"); inr (Admin.ClearCookie "token")]) /\
  Admin.serve (Admin.post_logout Sample.open
                 (Request "10.0.0.1" None (Some "token-old") "" Js.Null None)) ∅
    = (Some token_expired, ∅, [inl (JwtVerify "token-old")]).
Proof.
  split.
  - apply (proj1 (logout_clears_cookie_only Sample.open
                    (Sample.as_alice "" Js.Null None) ∅)
             (Claims "u1" "alice" false) [JwtVerify "token-alice"]).
    reflexivity.
  - apply (proj2 (logout_clears_cookie_only Sample.open
                    (Request "10.0.0.1" None (Some "token-old") "" Js.Null None) ∅)
             token_expired [JwtVerify "token-old"]).
    reflexivity.
Defined.

(** X21. The routes of this part behave like the other protected routes:
    none of them touches the map of login attempts, and a request the
    middleware turns down is answered by the middleware alone, with no call
    to the store and no cookie cleared. *)
Theorem remaining_routes_frame h env store req st :
  h ∈ [Admin.get_users; Admin.delete_user; Admin.patch_status; Admin.post_transactions;
       Admin.get_transactions; Admin.delete_transaction; Admin.patch_settings;
       fun env _ => Admin.post_logout env] ->
  (Admin.serve (h env store req) st).1.2 = st /\
  (forall r t,
      Server.authenticateToken env req st = (Sent r, st, t) ->
      Admin.serve (h env store req) st = (Some r, st, map inl t)).
Proof.
  intros Hroute. set_unfold in Hroute. split.
  - destruct_or?; subst; unfold_route;
      destruct (Server.authenticateToken env req st) as [[o st1] t1] eqn:Hauth;
      destruct (authenticateToken_frame _ _ _ _ _ _ Hauth) as [-> _];
      repeat (case_match; simplify_eq/=); done.
  - intros r t Hauth. destruct_or?; subst; unfold_route; by rewrite Hauth.
Qed.

Lemma remaining_routes_frame_witness :
  Admin.serve (Admin.delete_user Sample.open Admin.sample
                 (Request "10.0.0.1" None None "u2" Js.Null None)) {[ "10.0.0.1" := 2 ]}
  = (Some no_token, {[ "10.0.0.1" := 2 ]}, []).
Proof.
  apply (proj2 (remaining_routes_frame Admin.delete_user Sample.open Admin.sample
                  (Request "10.0.0.1" None None "u2" Js.Null None) {[ "10.0.0.1" := 2 ]}
                  ltac:(set_solver)) no_token []).
  reflexivity.
Defined.

(** * The receipt in exact arithmetic *)

From Stdlib Require Import Lqa.



(** * The auth context against the client and the server *)





